(** * The books backend of fastapi-supabase (src/backend/app.py)

    A shallow embedding of the five request handlers of [app.py] and of
    the request model [BookIn].  The handlers are written once, as
    programs over the calls they make to the outside world (the Supabase
    auth service, the Supabase table service, the clock); an interpreter
    runs such a program against a [world] and records the calls issued.

    A Python [str] is modelled by its UTF-8 text, a [string] of bytes
    (a string literal of this file is already that text); its length in
    characters is [len].  Python [int] is [Z]; a Python [dict] with
    string keys is a [gmap string _]. *)

From Stdlib Require Import ZArith NArith Ascii String.
From stdpp Require Import gmap strings list fin_maps.

Local Open Scope string_scope.

(** ** Data *)

(** A JSON cell of a books row: [None]/null or a string.  Every column
    of the books table (id, name, description, user_id, updated_at) is
    one of the two. *)
Inductive value : Type :=
  | VNull
  | VStr (s : string).

#[global] Instance value_eq_dec : EqDecision value.
Proof. solve_decision. Defined.

(** A row, a payload, the result of [model_dump()]: a dict keyed by
    column name. *)
Abbreviation row := (gmap string value).

(** The operation a query builder was opened with:
    [tbl.select(cols)], [tbl.insert(d)], [tbl.update(d)], [tbl.delete()]. *)
Inductive operation : Type :=
  | Select (columns : string)
  | Insert (payload : row)
  | Update (payload : row)
  | Delete.

(** A built query, as [execute()] sends it: the operation, the equality
    filters in the order they were added, and the optional [limit] and
    [offset] modifiers. *)
Record query : Type := mkQuery {
  q_op : operation;
  q_filters : list (string * string);
  q_limit : option Z;
  q_offset : option Z
}.

(** The builder methods used by [app.py]. *)
Definition tbl_select (columns : string) : query := mkQuery (Select columns) [] None None.
Definition tbl_insert (d : row) : query := mkQuery (Insert d) [] None None.
Definition tbl_update (d : row) : query := mkQuery (Update d) [] None None.
Definition tbl_delete : query := mkQuery Delete [] None None.

Definition eq_ (column val : string) (q : query) : query :=
  mkQuery (q_op q) (q_filters q ++ [(column, val)]) (q_limit q) (q_offset q).

Definition limit_ (n : Z) (q : query) : query :=
  mkQuery (q_op q) (q_filters q) (Some n) (q_offset q).

Definition offset_ (n : Z) (q : query) : query :=
  mkQuery (q_op q) (q_filters q) (q_limit q) (Some n).

(** [match(d)] adds one equality filter per entry of the dict literal,
    in the order the literal lists them. *)
Definition match_ (d : list (string * string)) (q : query) : query :=
  fold_left (fun acc kv => eq_ (fst kv) (snd kv) acc) d q.

(** What [execute()] returns: an object whose [data] is the list of rows. *)
Record APIResponse : Type := mkAPIResponse { data : list row }.

(** The auth service's answer to [sign_in_with_password]: the optional
    user object and the optional session. *)
Record User : Type := mkUser { id : string }.
Record Session : Type := mkSession { access_token : string }.
Record AuthResponse : Type := mkAuthResponse {
  user : option User;
  session : option Session
}.

(** [HTTPException(status_code, detail)]. *)
Record HTTPException : Type := mkHTTPException {
  status_code : Z;
  detail : string
}.

#[global] Instance HTTPException_eq_dec : EqDecision HTTPException.
Proof. solve_decision. Defined.

(** [datetime.now(timezone.utc)]: an aware datetime whose offset is UTC. *)
Record datetime : Type := mkDatetime {
  year : N; month : N; day : N;
  hour : N; minute : N; second : N; microsecond : N
}.

(** A parsed [UUID], by its 128-bit integer. *)
Record UUID : Type := mkUUID { uuid_int : N }.

(** The login form ([OAuth2PasswordRequestForm]): the two fields read. *)
Record OAuth2PasswordRequestForm : Type := mkForm {
  username : string;
  password : string
}.

(** The request model of POST /book and PUT /book/{book_id}. *)
Record BookIn : Type := mkBookIn {
  name : string;
  description : option string
}.

(** ** Text formatting done by the handlers *)

Definition digit_char (d : N) : ascii :=
  (match d with
   | 0 => "0" | 1 => "1" | 2 => "2" | 3 => "3" | 4 => "4" | 5 => "5"
   | 6 => "6" | 7 => "7" | 8 => "8" | 9 => "9" | 10 => "a" | 11 => "b"
   | 12 => "c" | 13 => "d" | 14 => "e" | _ => "f"
   end%char)%N.

(** [n] written in [base] on exactly [width] digits, zero padded (the
    low [width] digits when [n] is larger): ['%0<width>d'] and
    ['%0<width>x'] on the values the handlers format. *)
Fixpoint fixed_digits (base : N) (width : nat) (n : N) : string :=
  match width with
  | O => ""
  | S w => fixed_digits base w (n / base) +:+ String (digit_char (n mod base)) ""
  end.

(** [str(book_id)]: the 32 hex digits of the integer, grouped 8-4-4-4-12. *)
Definition str_UUID (u : UUID) : string :=
  let hex := fixed_digits 16 32 (uuid_int u) in
  substring 0 8 hex +:+ "-" +:+ substring 8 4 hex +:+ "-" +:+
  substring 12 4 hex +:+ "-" +:+ substring 16 4 hex +:+ "-" +:+
  substring 20 12 hex.

(** [t.isoformat()] for an aware datetime at UTC: date, [T], time, the
    microseconds only when they are not zero, and the offset [+00:00]. *)
Definition isoformat (t : datetime) : string :=
  fixed_digits 10 4 (year t) +:+ "-" +:+ fixed_digits 10 2 (month t) +:+ "-" +:+
  fixed_digits 10 2 (day t) +:+ "T" +:+
  fixed_digits 10 2 (hour t) +:+ ":" +:+ fixed_digits 10 2 (minute t) +:+ ":" +:+
  fixed_digits 10 2 (second t) +:+
  (if (microsecond t =? 0)%N then "" else "." +:+ fixed_digits 10 6 (microsecond t)) +:+
  "+00:00".

(** ** Reading the formatted texts back

    The inverse readings the formats are judged by: a digit string read
    in a base, the 8-4-4-4-12 text of a UUID read back to its integer,
    and an ISO-8601 text at offset +00:00 read back to a datetime. *)

Definition digit_value (c : ascii) : option N :=
  let n := N_of_ascii c in
  if ((48 <=? n) && (n <=? 57))%N then Some (n - 48)%N
  else if ((97 <=? n) && (n <=? 102))%N then Some (n - 87)%N
  else None.

Fixpoint parse_digits_from (base acc : N) (s : string) : option N :=
  match s with
  | EmptyString => Some acc
  | String c s' =>
      match digit_value c with
      | Some d => if (d <? base)%N then parse_digits_from base (acc * base + d) s' else None
      | None => None
      end
  end.

Definition parse_digits (base : N) (s : string) : option N := parse_digits_from base 0 s.

(** The hex digits of a UUID text, hyphens checked and removed. *)
Definition parse_UUID (s : string) : option UUID :=
  if String.eqb (substring 8 1 s) "-" && String.eqb (substring 13 1 s) "-" &&
     String.eqb (substring 18 1 s) "-" && String.eqb (substring 23 1 s) "-" &&
     Nat.eqb (String.length s) 36
  then mkUUID <$> parse_digits 16 (substring 0 8 s +:+ substring 9 4 s +:+
                                   substring 14 4 s +:+ substring 19 4 s +:+
                                   substring 24 12 s)
  else None.

(** [YYYY-MM-DDTHH:MM:SS+00:00] or [YYYY-MM-DDTHH:MM:SS.ffffff+00:00]. *)
Definition fromisoformat (s : string) : option datetime :=
  let field i w := parse_digits 10 (substring i w s) in
  let lit i l := String.eqb (substring i (String.length l) s) l in
  if lit 4%nat "-" && lit 7%nat "-" && lit 10%nat "T" && lit 13%nat ":" && lit 16%nat ":" then
    match field 0%nat 4%nat, field 5%nat 2%nat, field 8%nat 2%nat,
          field 11%nat 2%nat, field 14%nat 2%nat, field 17%nat 2%nat with
    | Some y, Some mo, Some d, Some h, Some mi, Some se =>
        if String.eqb (substring 19 (String.length s - 19) s) "+00:00"
        then Some (mkDatetime y mo d h mi se 0)
        else if lit 19%nat "." &&
                String.eqb (substring 26 (String.length s - 26) s) "+00:00"
        then mkDatetime y mo d h mi se <$> field 20%nat 6%nat
        else None
    | _, _, _, _, _, _ => None
    end
  else None.

(** The values a [datetime] and a [UUID] can hold. *)
Definition valid_datetime (t : datetime) : Prop :=
  (1 <= year t <= 9999 ∧ 1 <= month t <= 12 ∧ 1 <= day t <= 31 ∧
   hour t < 24 ∧ minute t < 60 ∧ second t < 60 ∧ microsecond t < 1000000)%N.

Definition valid_UUID (u : UUID) : Prop := (uuid_int u < 2 ^ 128)%N.

(** ** The request model *)

(** A field of the JSON body as the client sent it. *)
Inductive json : Type :=
  | JNull
  | JBool (b : bool)
  | JNumber (z : Z)
  | JString (s : string)
  | JArray
  | JObject.

(** The body of a book request: each key may be missing. *)
Record body : Type := mkBody {
  body_name : option json;
  body_description : option json
}.

(** A byte [10xxxxxx] continues a character begun by an earlier byte. *)
Definition is_continuation_byte (c : ascii) : bool :=
  Nat.leb 128 (nat_of_ascii c) && Nat.ltb (nat_of_ascii c) 192.

(** [len(s)]: the number of characters (code points) of a [str], which
    on its UTF-8 text is the number of bytes that begin a character. *)
Fixpoint len (s : string) : nat :=
  match s with
  | EmptyString => O
  | String c s' => ((if is_continuation_byte c then 0 else 1) + len s')%nat
  end.

(** [name: str = Field(..., max_length=100)]: required, a string, of at
    most 100 characters.  No lower bound is declared. *)
Definition validate_name (f : option json) : option string :=
  match f with
  | Some (JString s) => if Nat.leb (len s) 100 then Some s else None
  | _ => None
  end.

(** [description: Optional[str] = None]: missing or null gives [None],
    a string gives itself, anything else is an error. *)
Definition validate_description (f : option json) : option (option string) :=
  match f with
  | None => Some None
  | Some JNull => Some None
  | Some (JString s) => Some (Some s)
  | Some _ => None
  end.

(** Validation of the body against [BookIn]; [None] is a validation
    error. *)
Definition validate_BookIn (b : body) : option BookIn :=
  match validate_name (body_name b), validate_description (body_description b) with
  | Some n, Some d => Some (mkBookIn n d)
  | _, _ => None
  end.

(** [book.model_dump()]: a fresh dict with the two fields of the model. *)
Definition model_dump (book : BookIn) : row :=
  <["description" := match description book with Some d => VStr d | None => VNull end]>
    (<["name" := VStr (name book)]> ∅).

(** Truth value of a list: empty is false. *)
Definition truthy {A : Type} (l : list A) : bool :=
  match l with
  | [] => false
  | _ :: _ => true
  end.

(** ** Handlers as programs over outside calls *)

(** A handler either returns, raises an [HTTPException], or awaits one
    of the three outside calls and goes on with its answer. *)
Inductive handler (A : Type) : Type :=
  | Return (a : A)
  | Raise (e : HTTPException)
  | SignInWithPassword (credentials : gmap string string) (k : AuthResponse -> handler A)
  | Execute (q : query) (k : APIResponse -> handler A)
  | UtcNow (k : datetime -> handler A).

Arguments Return {A} a.
Arguments Raise {A} e.
Arguments SignInWithPassword {A} credentials k.
Arguments Execute {A} q k.
Arguments UtcNow {A} k.

Notation "'await' x <- c ;; k" := (c (fun x => k))
  (at level 10, x name, c at level 99, k at level 200, only parsing).

(** POST /login *)
Definition login (form_data : OAuth2PasswordRequestForm) : handler row :=
  let data_ := <["password" := password form_data]>
                 (<["email" := username form_data]> (∅ : gmap string string)) in
  await resp <- SignInWithPassword data_ ;;
  match user resp with
  | Some _ =>
      let token := VNull in
      let token :=
        match session resp with
        | Some sess => VStr (access_token sess)
        | None => token
        end in
      Return {["access_token" := token]}
  | None => Raise (mkHTTPException 400 "Invalid username or password")
  end.

(** GET /book *)
Definition list_book (current_user : User) (page limit : Z) : handler (list row) :=
  let offset := ((page - 1) * limit)%Z in
  await resp <- Execute (offset_ offset (limit_ limit
                   (eq_ "user_id" (id current_user) (tbl_select "*")))) ;;
  Return (data resp).

(** The duplicate-name probe shared by create and update:
    [tbl.select("name").eq("name", book.name).limit(1)]. *)
Definition name_probe (book : BookIn) : query :=
  limit_ 1 (eq_ "name" (name book) (tbl_select "name")).

(** POST /book.  The dict [data_] (the source's [data]) receives [user_id], but the insert is
    built from a second [book.model_dump()]. *)
Definition create_book (book : BookIn) (current_user : User) : handler row :=
  await resp <- Execute (name_probe book) ;;
  if truthy (data resp) then Raise (mkHTTPException 400 "Book already exists") else
  let data_ := model_dump book in
  let data_ := <["user_id" := VStr (id current_user)]> data_ in
  await resp <- Execute (tbl_insert (model_dump book)) ;;
  match data resp with
  | r :: _ => Return r
  | [] => Raise (mkHTTPException 400 "Something went wrong")
  end.

(** PUT /book/{book_id} *)
Definition update_book (book_id : UUID) (book : BookIn) (current_user : User) : handler row :=
  await resp <- Execute (name_probe book) ;;
  if truthy (data resp) then Raise (mkHTTPException 400 "Book already exists") else
  let data_ := model_dump book in
  await now <- UtcNow ;;
  let data_ := <["updated_at" := VStr (isoformat now)]> data_ in
  await resp <- Execute (match_ [("id", str_UUID book_id); ("user_id", id current_user)]
                           (tbl_update data_)) ;;
  if truthy (data resp) then Return ∅ else Raise (mkHTTPException 404 "Book not found").

(** DELETE /book/{book_id} *)
Definition delete_book (book_id : UUID) (current_user : User) : handler row :=
  await resp <- Execute (eq_ "user_id" (id current_user)
                           (eq_ "id" (str_UUID book_id) tbl_delete)) ;;
  if truthy (data resp) then Return ∅ else Raise (mkHTTPException 404 "Book not found").

(** The body is validated before the handler is entered; a validation
    error is answered with status 422 and the handler does not run. *)
Definition validation_error : HTTPException := mkHTTPException 422 "Unprocessable Entity".

Definition post_book (b : body) (current_user : User) : handler row :=
  match validate_BookIn b with
  | Some book => create_book book current_user
  | None => Raise validation_error
  end.

Definition put_book (book_id : UUID) (b : body) (current_user : User) : handler row :=
  match validate_BookIn b with
  | Some book => update_book book_id book current_user
  | None => Raise validation_error
  end.

(** ** Running a handler *)

(** The outside world: how each call answers in a state [S], and the
    state it leaves.  [None] is a call that raises; nothing in [app.py]
    catches it. *)
Record world (S : Type) : Type := mkWorld {
  sign_in_with_password : gmap string string -> S -> option AuthResponse * S;
  execute : query -> S -> option APIResponse * S;
  utcnow : S -> datetime * S
}.

Arguments sign_in_with_password {S} _ _ _.
Arguments execute {S} _ _ _.
Arguments utcnow {S} _ _.

(** One entry per outside call, in the order issued. *)
Inductive event : Type :=
  | EvSignIn (credentials : gmap string string)
  | EvExecute (q : query)
  | EvUtcNow.

(** How a request ends: the handler's value, an [HTTPException], or an
    exception of an outside call that passes through unhandled. *)
Inductive outcome (A : Type) : Type :=
  | Returned (a : A)
  | HTTPError (e : HTTPException)
  | Unhandled.

Arguments Returned {A} a.
Arguments HTTPError {A} e.
Arguments Unhandled {A}.

Fixpoint run {S A : Type} (W : world S) (p : handler A) (s : S)
  : outcome A * S * list event :=
  match p with
  | Return a => (Returned a, s, [])
  | Raise e => (HTTPError e, s, [])
  | SignInWithPassword c k =>
      match sign_in_with_password W c s with
      | (Some resp, s1) =>
          let '(o, s2, t) := run W (k resp) s1 in (o, s2, EvSignIn c :: t)
      | (None, s1) => (Unhandled, s1, [EvSignIn c])
      end
  | Execute q k =>
      match execute W q s with
      | (Some resp, s1) =>
          let '(o, s2, t) := run W (k resp) s1 in (o, s2, EvExecute q :: t)
      | (None, s1) => (Unhandled, s1, [EvExecute q])
      end
  | UtcNow k =>
      let '(now, s1) := utcnow W s in
      let '(o, s2, t) := run W (k now) s1 in (o, s2, EvUtcNow :: t)
  end.

Definition result_of {S A : Type} (r : outcome A * S * list event) : outcome A := r.1.1.
Definition state_of {S A : Type} (r : outcome A * S * list event) : S := r.1.2.
Definition calls_of {S A : Type} (r : outcome A * S * list event) : list event := r.2.

(** ** The Supabase services the handlers talk to

    The services are outside this repository.  [Supabase] is the table
    service of the spec's interface (filtered select, insert, update and
    delete with equality, limit and offset modifiers) over a table kept
    as a list of rows in stored order, an auth service that answers from
    a list of known credentials, and a clock.  Theorems that only speak
    of the calls a handler issues are proved for every [world]; those
    that speak of the table's content are proved for this one. *)
Module Supabase.

Record state : Type := mkState {
  books : list row;
  next_id : N;
  clock : datetime;
  accounts : list (string * string * AuthResponse)
}.

(** A row passes the filters when each filtered column holds exactly
    the given string; a missing or null column passes none. *)
Definition matches (filters : list (string * string)) (r : row) : bool :=
  forallb (fun f => bool_decide (r !! f.1 = Some (VStr f.2))) filters.

(** [select("*")] keeps the row; [select(c)] keeps column [c] only. *)
Definition project (columns : string) (r : row) : row :=
  if bool_decide (columns = "*") then r
  else {[ columns := default VNull (r !! columns) ]}.

(** Offset then limit; the store refuses a negative one. *)
Definition window (lim off : option Z) (l : list row) : option (list row) :=
  let o := default 0%Z off in
  if bool_decide (o < 0)%Z then None else
  let l := drop (Z.to_nat o) l in
  match lim with
  | None => Some l
  | Some n => if bool_decide (n < 0)%Z then None else Some (take (Z.to_nat n) l)
  end.

Definition set_books (s : state) (b : list row) : state :=
  mkState b (next_id s) (clock s) (accounts s).

Definition exec (q : query) (s : state) : option APIResponse * state :=
  match q_op q with
  | Select columns =>
      match window (q_limit q) (q_offset q)
              (List.filter (matches (q_filters q)) (books s)) with
      | Some rows => (Some (mkAPIResponse (project columns <$> rows)), s)
      | None => (None, s)
      end
  | Insert payload =>
      let r := payload ∪ {[ "id" := VStr (str_UUID (mkUUID (next_id s))) ]} in
      (Some (mkAPIResponse [r]),
       mkState (books s ++ [r]) (next_id s + 1) (clock s) (accounts s))
  | Update payload =>
      let hit := List.filter (matches (q_filters q)) (books s) in
      (Some (mkAPIResponse ((fun r => payload ∪ r) <$> hit)),
       set_books s ((fun r => if matches (q_filters q) r then payload ∪ r else r)
                      <$> books s))
  | Delete =>
      let hit := List.filter (matches (q_filters q)) (books s) in
      (Some (mkAPIResponse hit),
       set_books s (List.filter (fun r => negb (matches (q_filters q) r)) (books s)))
  end.

(** The auth service answers with the response recorded for the
    credentials and raises when it knows none. *)
Fixpoint find_account (email pass : option string)
    (l : list (string * string * AuthResponse)) : option AuthResponse :=
  match l with
  | [] => None
  | (e, p, resp) :: l' =>
      if bool_decide (email = Some e) && bool_decide (pass = Some p)
      then Some resp else find_account email pass l'
  end.

Definition sign_in (credentials : gmap string string) (s : state)
  : option AuthResponse * state :=
  (find_account (credentials !! "email") (credentials !! "password") (accounts s), s).

Definition now (s : state) : datetime * state := (clock s, s).

Definition service : world state := mkWorld state sign_in exec now.

End Supabase.

(** ** Sample data used by the closed examples *)

Definition alice : User := mkUser "user-a".
Definition bob : User := mkUser "user-b".

Definition book_1 : UUID := mkUUID 1.
Definition book_2 : UUID := mkUUID 2.

Definition noon : datetime := mkDatetime 2024 3 7 12 0 0 0.

Definition stored (book_id : UUID) (owner : User) (n : string) : row :=
  <["id" := VStr (str_UUID book_id)]>
    (<["user_id" := VStr (id owner)]>
       (<["name" := VStr n]> (<["description" := VNull]> ∅))).

Definition known_accounts : list (string * string * AuthResponse) :=
  [ ("a@example.org", "pw-a", mkAuthResponse (Some alice) (Some (mkSession "token-a")));
    ("b@example.org", "pw-b", mkAuthResponse (Some bob) None);
    ("c@example.org", "pw-c", mkAuthResponse None None) ].

(** Alice owns "Dune", Bob owns "Emma". *)
Definition library : Supabase.state :=
  Supabase.mkState [stored book_1 alice "Dune"; stored book_2 bob "Emma"] 3 noon known_accounts.

Definition empty_library : Supabase.state := Supabase.mkState [] 1 noon known_accounts.

(** The errors of the handlers, by the names the spec gives them. *)
Definition DuplicateName : HTTPException := mkHTTPException 400 "Book already exists".
Definition NotFound : HTTPException := mkHTTPException 404 "Book not found".
Definition InvalidCredentials : HTTPException :=
  mkHTTPException 400 "Invalid username or password".

(** ** Named queries and predicates of the statements *)

(** The credentials dict built by [login]. *)
Definition login_data (form_data : OAuth2PasswordRequestForm) : gmap string string :=
  <["password" := password form_data]> (<["email" := username form_data]> ∅).

(** The select issued by [list_book], written out. *)
Definition list_query (current_user : User) (page limit : Z) : query :=
  mkQuery (Select "*") [("user_id", id current_user)]
          (Some limit) (Some ((page - 1) * limit)%Z).

(** The update issued by [update_book] at clock reading [now]. *)
Definition update_payload (book : BookIn) (now : datetime) : row :=
  <["updated_at" := VStr (isoformat now)]> (model_dump book).

Definition update_query (book_id : UUID) (book : BookIn) (current_user : User)
    (now : datetime) : query :=
  mkQuery (Update (update_payload book now))
          [("id", str_UUID book_id); ("user_id", id current_user)] None None.

Definition delete_query (book_id : UUID) (current_user : User) : query :=
  mkQuery Delete [("id", str_UUID book_id); ("user_id", id current_user)] None None.

(** What an inserted payload must satisfy for the insert to omit the
    owner: it is the dump of the model and has no [user_id] key. *)
Definition insert_without_owner (book : BookIn) (ev : event) : Prop :=
  match ev with
  | EvExecute q =>
      match q_op q with
      | Insert payload => payload = model_dump book ∧ payload !! "user_id" = None
      | _ => True
      end
  | _ => True
  end.

(** A row with this id exists and no row with this id is the caller's. *)
Definition owned_by_other (s : Supabase.state) (book_id : UUID) (current_user : User) : Prop :=
  Exists (λ r, r !! "id" = Some (VStr (str_UUID book_id))) (Supabase.books s) ∧
  Forall (λ r, r !! "id" = Some (VStr (str_UUID book_id)) →
               r !! "user_id" ≠ Some (VStr (id current_user))) (Supabase.books s).

(** No row has this id. *)
Definition absent (s : Supabase.state) (book_id : UUID) : Prop :=
  Forall (λ r, r !! "id" ≠ Some (VStr (str_UUID book_id))) (Supabase.books s).

(** [s * n]: [n] copies of [s]. *)
Fixpoint times (n : nat) (s : string) : string :=
  match n with
  | O => ""
  | S n' => s +:+ times n' s
  end.

(** A body whose name is the empty string. *)
Definition empty_name_body : body := mkBody (Some (JString "")) None.

(** ** Start-up: the logger loop (lines 20-23) *)

(** [k.startswith(prefixes)] with a tuple: some element is a prefix. *)
Definition startswith (k : string) (prefixes : list string) : bool :=
  existsb (fun p => String.prefix p k) prefixes.

(** [logging.Logger.manager.loggerDict], by the [disabled] flag of each
    named logger.  The loop sets the flag of every logger whose name
    starts with neither prefix and touches no other. *)
Definition disable_other_loggers (loggerDict : gmap string bool) : gmap string bool :=
  map_imap (fun k disabled =>
              Some (if negb (startswith k ["fastapi_supabase"; "uvicorn"])
                    then true else disabled)) loggerDict.

(** ** Rows and tables, as the statements below speak of them *)

(** The filters both [update_book] and [delete_book] end up with. *)
Definition own_filters (book_id : UUID) (current_user : User) : list (string * string) :=
  [("id", str_UUID book_id); ("user_id", id current_user)].

(** The row has this id and belongs to this user. *)
Definition is_own (book_id : UUID) (current_user : User) (r : row) : Prop :=
  r !! "id" = Some (VStr (str_UUID book_id)) ∧
  r !! "user_id" = Some (VStr (id current_user)).

(** Some row of the table carries the name. *)
Definition name_taken (n : string) (s : Supabase.state) : Prop :=
  Exists (λ r, r !! "name" = Some (VStr n)) (Supabase.books s).

(** The caller's rows, in stored order. *)
Definition own_rows (current_user : User) (s : Supabase.state) : list row :=
  List.filter (λ r, bool_decide (r !! "user_id" = Some (VStr (id current_user))))
              (Supabase.books s).

(** The rows one page of [list_book] shows (none when the request fails). *)
Definition page_rows (s : Supabase.state) (current_user : User) (page limit : Z) : list row :=
  match result_of (run Supabase.service (list_book current_user page limit) s) with
  | Returned rows => rows
  | _ => []
  end.

(** What each handler may send to the table service. *)
Definition is_select (ev : event) : Prop :=
  match ev with
  | EvExecute q => match q_op q with Select _ => True | _ => False end
  | _ => False
  end.

Definition is_plain_insert (ev : event) : Prop :=
  match ev with
  | EvExecute q =>
      match q_op q with
      | Insert payload => dom payload = ({["name"; "description"]} : gset string)
                          ∧ q_filters q = []
      | _ => False
      end
  | _ => False
  end.

Definition is_update_of (book_id : UUID) (current_user : User) (ev : event) : Prop :=
  match ev with
  | EvExecute q =>
      match q_op q with
      | Update payload =>
          dom payload = ({["name"; "description"; "updated_at"]} : gset string)
          ∧ q_filters q = own_filters book_id current_user
      | _ => False
      end
  | _ => False
  end.

Definition is_delete_of (book_id : UUID) (current_user : User) (ev : event) : Prop :=
  match ev with
  | EvExecute q =>
      match q_op q with
      | Delete => q_filters q = own_filters book_id current_user
      | _ => False
      end
  | _ => False
  end.

(** A world whose table service answers every select with no row and
    every write with the same two rows; its auth service always raises. *)
Definition two_row_world : world unit :=
  mkWorld unit
    (λ _ s, (None, s))
    (λ q s, (Some (mkAPIResponse
                     match q_op q with
                     | Select _ => []
                     | _ => [ {[ "name" := VStr "first" ]}; {[ "name" := VStr "second" ]} ]
                     end), s))
    (λ s, (noon, s)).

(** ** What a handler issues, in any world *)

Section AnyWorld.

Context {S : Type} (W : world S).

Lemma run_list_book current_user page limit s :
  run W (list_book current_user page limit) s =
  let a := execute W (list_query current_user page limit) s in
  (match a.1 with Some resp => Returned (data resp) | None => Unhandled end,
   a.2, [EvExecute (list_query current_user page limit)]).
Proof.
  unfold list_book, list_query. cbn.
  destruct (execute W _ s) as [[resp|] s1]; reflexivity.
Qed.

(** When the probe finds a row, both guarded handlers stop there. *)
Lemma run_create_book_taken book current_user s resp s1 :
  execute W (name_probe book) s = (Some resp, s1) →
  truthy (data resp) = true →
  run W (create_book book current_user) s =
    (HTTPError DuplicateName, s1, [EvExecute (name_probe book)]).
Proof. intros He Ht. cbn. rewrite He, Ht. reflexivity. Qed.

Lemma run_update_book_taken book_id book current_user s resp s1 :
  execute W (name_probe book) s = (Some resp, s1) →
  truthy (data resp) = true →
  run W (update_book book_id book current_user) s =
    (HTTPError DuplicateName, s1, [EvExecute (name_probe book)]).
Proof. intros He Ht. cbn. rewrite He, Ht. reflexivity. Qed.

(** When the probe finds nothing, [create_book] goes on to the insert. *)
Lemma run_create_book_free book current_user s resp s1 :
  execute W (name_probe book) s = (Some resp, s1) →
  truthy (data resp) = false →
  run W (create_book book current_user) s =
    let a := execute W (tbl_insert (model_dump book)) s1 in
    (match a.1 with
     | Some resp' =>
         match data resp' with
         | r :: _ => Returned r
         | [] => HTTPError (mkHTTPException 400 "Something went wrong")
         end
     | None => Unhandled
     end, a.2,
     [EvExecute (name_probe book); EvExecute (tbl_insert (model_dump book))]).
Proof.
  intros He Ht. cbn. rewrite He, Ht. cbn.
  destruct (execute W _ s1) as [[resp'|] s2]; cbn; [|reflexivity].
  destruct (data resp'); reflexivity.
Qed.

(** When the probe finds nothing, [update_book] reads the clock and
    issues the update. *)
Lemma run_update_book_free book_id book current_user s resp s1 now s2 :
  execute W (name_probe book) s = (Some resp, s1) →
  truthy (data resp) = false →
  utcnow W s1 = (now, s2) →
  run W (update_book book_id book current_user) s =
    let q := update_query book_id book current_user now in
    let a := execute W q s2 in
    (match a.1 with
     | Some resp' => if truthy (data resp') then Returned ∅ else HTTPError NotFound
     | None => Unhandled
     end, a.2,
     [EvExecute (name_probe book); EvUtcNow; EvExecute q]).
Proof.
  intros He Ht Hn. cbn. rewrite He, Ht. cbn. rewrite Hn. cbn.
  change (execute W _ s2) with (execute W (update_query book_id book current_user now) s2).
  destruct (execute W _ s2) as [[resp'|] s3]; cbn; [|reflexivity].
  destruct (truthy (data resp')); reflexivity.
Qed.

Lemma run_delete_book book_id current_user s :
  run W (delete_book book_id current_user) s =
    let q := delete_query book_id current_user in
    let a := execute W q s in
    (match a.1 with
     | Some resp => if truthy (data resp) then Returned ∅ else HTTPError NotFound
     | None => Unhandled
     end, a.2, [EvExecute q]).
Proof.
  cbn. change (execute W _ s) with (execute W (delete_query book_id current_user) s).
  destruct (execute W _ s) as [[resp|] s1]; cbn; [|reflexivity].
  destruct (truthy (data resp)); reflexivity.
Qed.

Lemma run_login form_data s :
  run W (login form_data) s =
    let a := sign_in_with_password W (login_data form_data) s in
    (match a.1 with
     | Some resp =>
         match user resp with
         | Some _ =>
             Returned {[ "access_token" :=
               match session resp with
               | Some sess => VStr (access_token sess)
               | None => VNull
               end ]}
         | None => HTTPError InvalidCredentials
         end
     | None => Unhandled
     end, a.2, [EvSignIn (login_data form_data)]).
Proof.
  cbn. change (sign_in_with_password W _ s)
    with (sign_in_with_password W (login_data form_data) s).
  destruct (sign_in_with_password W _ s) as [[resp|] s1]; cbn; [|reflexivity].
  destruct (user resp); reflexivity.
Qed.

End AnyWorld.

(** ** Facts about the table service *)

Section TableService.

Import Supabase.

Lemma matches_one c v r :
  matches [(c, v)] r = true ↔ r !! c = Some (VStr v).
Proof.
  unfold matches. cbn. rewrite andb_true_r. apply bool_decide_eq_true.
Qed.

Lemma matches_two c1 v1 c2 v2 r :
  matches [(c1, v1); (c2, v2)] r = true ↔
  r !! c1 = Some (VStr v1) ∧ r !! c2 = Some (VStr v2).
Proof.
  unfold matches. cbn. rewrite andb_true_r, andb_true_iff, !bool_decide_eq_true.
  reflexivity.
Qed.

Lemma state_eta s : set_books s (books s) = s.
Proof. destruct s; reflexivity. Qed.

Lemma filter_none {A} (f : A → bool) (l : list A) :
  (∀ x, x ∈ l → f x = false) → List.filter f l = [].
Proof.
  induction l as [|a l IH]; intros H; [reflexivity|]. cbn.
  rewrite (H a) by left. apply IH. intros x Hx. apply H. by right.
Qed.

Lemma filter_all {A} (f : A → bool) (l : list A) :
  (∀ x, x ∈ l → f x = true) → List.filter f l = l.
Proof.
  induction l as [|a l IH]; intros H; [reflexivity|]. cbn.
  rewrite (H a) by left. f_equal. apply IH. intros x Hx. apply H. by right.
Qed.

Lemma filter_some {A} (f : A → bool) (l : list A) x :
  x ∈ l → f x = true → ∃ y l', List.filter f l = y :: l'.
Proof.
  induction l as [|a l IH]; intros Hx Hf; [by apply elem_of_nil in Hx|].
  cbn. destruct (f a) eqn:Ha; [eauto|].
  apply elem_of_cons in Hx as [->|Hx]; [congruence|]. by apply IH.
Qed.

Lemma fmap_unhit {A} (f : A → bool) (g : A → A) (l : list A) :
  (∀ x, x ∈ l → f x = false) → (λ x, if f x then g x else x) <$> l = l.
Proof.
  induction l as [|a l IH]; intros H; [reflexivity|]. cbn.
  rewrite (H a) by left. f_equal. apply IH. intros x Hx. apply H. by right.
Qed.

(** The probe reads the table and leaves it as it is. *)
Lemma exec_name_probe book s :
  exec (name_probe book) s =
    (Some (mkAPIResponse
             (project "name" <$>
              take 1 (List.filter (matches [("name", name book)]) (books s)))), s).
Proof. reflexivity. Qed.

Lemma probe_hit book s r :
  r ∈ books s → r !! "name" = Some (VStr (name book)) →
  ∃ resp, exec (name_probe book) s = (Some resp, s) ∧ truthy (data resp) = true.
Proof.
  intros Hr Hn. rewrite exec_name_probe. eexists. split; [reflexivity|]. cbn.
  destruct (filter_some (matches [("name", name book)]) (books s) r Hr) as (y & l' & ->).
  - by apply matches_one.
  - reflexivity.
Qed.

Lemma probe_miss book s :
  Forall (λ r, r !! "name" ≠ Some (VStr (name book))) (books s) →
  exec (name_probe book) s = (Some (mkAPIResponse []), s).
Proof.
  intros H. rewrite exec_name_probe. rewrite filter_none; [reflexivity|].
  intros r Hr. rewrite Forall_forall in H. specialize (H r Hr).
  destruct (matches _ r) eqn:E; [|reflexivity]. apply matches_one in E. done.
Qed.

(** A probe that comes back empty means no row carries the name. *)
Lemma probe_empty_inv book s resp s1 :
  exec (name_probe book) s = (Some resp, s1) → truthy (data resp) = false →
  Forall (λ r, r !! "name" ≠ Some (VStr (name book))) (books s).
Proof.
  intros He Ht. apply Forall_forall. intros r Hr Hn.
  destruct (probe_hit book s r Hr Hn) as (resp' & He' & Ht').
  rewrite He in He'. congruence.
Qed.

(** The rows a select returns pass its filters and come from the table. *)
Lemma exec_select_star filters lim off s resp s1 :
  exec (mkQuery (Select "*") filters lim off) s = (Some resp, s1) →
  s1 = s ∧ ∀ r, r ∈ data resp → r ∈ books s ∧ matches filters r = true.
Proof.
  unfold exec. cbn. unfold window.
  set (l := List.filter (matches filters) (books s)).
  assert (Hl : ∀ r, r ∈ l → r ∈ books s ∧ matches filters r = true).
  { intros r Hr. apply list_elem_of_In, filter_In in Hr as [Hr Hm].
    split; [by apply list_elem_of_In|done]. }
  assert (Hp : ∀ rows : list row, project "*" <$> rows = rows).
  { intros rows. induction rows as [|a rows IH]; [reflexivity|]. cbn. by rewrite IH. }
  case_bool_decide; [intros [=]|].
  destruct lim as [n|].
  - case_bool_decide; [intros [=]|]. intros [= <- <-]. split; [reflexivity|].
    cbn. rewrite Hp. intros r Hr. apply Hl.
    eapply subseteq_drop, subseteq_take, Hr.
  - intros [= <- <-]. split; [reflexivity|]. cbn. rewrite Hp. intros r Hr.
    apply Hl. eapply subseteq_drop, Hr.
Qed.

End TableService.

(** ** Listing *)

(** C8: for every integer [page] and [limit], zero and negative ones
    included, [list_book] issues exactly one call, the select of all
    columns filtered on [user_id = current_user.id] with [limit] and
    offset [(page - 1) * limit]; it returns the rows of the answer
    unchanged, and an exception of the call passes through. *)
Theorem list_book_single_scoped_select :
  ∀ (S : Type) (W : world S) (s : S) (current_user : User) (page limit : Z),
    let q := mkQuery (Select "*") [("user_id", id current_user)]
                     (Some limit) (Some ((page - 1) * limit)%Z) in
    let r := run W (list_book current_user page limit) s in
    calls_of r = [EvExecute q] ∧
    state_of r = (execute W q s).2 ∧
    result_of r = match (execute W q s).1 with
                  | Some resp => Returned (data resp)
                  | None => Unhandled
                  end.
Proof.
  intros S W s current_user page limit q r. subst r.
  rewrite run_list_book. fold q. cbn. auto.
Qed.

(** C2: every row [list_book] returns carries the caller's id in
    [user_id], whatever [page] and [limit] are; so a row of the table
    that belongs to another user is never among them. *)
Theorem list_book_returns_only_own_rows :
  ∀ (s : Supabase.state) (current_user : User) (page limit : Z) (rows : list row),
    result_of (run Supabase.service (list_book current_user page limit) s) = Returned rows →
    (∀ r, r ∈ rows → r !! "user_id" = Some (VStr (id current_user))) ∧
    (∀ r other, r ∈ Supabase.books s → r !! "user_id" = Some (VStr other) →
                other ≠ id current_user → r ∉ rows).
Proof.
  intros s current_user page limit rows Hrun.
  rewrite run_list_book in Hrun. unfold result_of in Hrun.
  change (execute Supabase.service) with Supabase.exec in Hrun.
  destruct (Supabase.exec (list_query current_user page limit) s) as [[resp|] s1] eqn:He;
    simpl in Hrun; [|discriminate].
  injection Hrun as <-.
  apply exec_select_star in He as [_ Hrows].
  assert (Hown : ∀ r, r ∈ data resp → r !! "user_id" = Some (VStr (id current_user))).
  { intros r Hr. destruct (Hrows r Hr) as [_ Hm]. by apply matches_one in Hm. }
  split; [exact Hown|].
  intros r other _ Ho Hne Hr. apply Hown in Hr. congruence.
Qed.

(** Bob lists the sample library and gets his book only. *)
Lemma list_book_returns_only_own_rows_witness :
  result_of (run Supabase.service (list_book bob 1 10) library)
    = Returned [stored book_2 bob "Emma"] ∧
  (∀ r, r ∈ [stored book_2 bob "Emma"] → r !! "user_id" = Some (VStr (id bob))) ∧
  (∀ r other, r ∈ Supabase.books library → r !! "user_id" = Some (VStr other) →
              other ≠ id bob → r ∉ [stored book_2 bob "Emma"]).
Proof.
  split; [vm_compute; reflexivity|].
  apply (list_book_returns_only_own_rows library bob 1 10).
  vm_compute; reflexivity.
Defined.

(** A page past the end is empty; a negative limit is handed to the
    service as it is, and the service's refusal passes through. *)
Example list_book_second_page :
  result_of (run Supabase.service (list_book bob 2 10) library) = Returned [].
Proof. vm_compute. reflexivity. Qed.

Example list_book_negative_limit :
  run Supabase.service (list_book bob 1 (-1)) library
    = (Unhandled, library, [EvExecute (list_query bob 1 (-1))]).
Proof. vm_compute. reflexivity. Qed.

(** ** Login *)

(** C6 as stated fails: when the auth service raises instead of
    answering (here: a wrong password), no user object is returned and
    yet [login] does not fail with [InvalidCredentials]; the exception
    passes through unhandled. *)
Lemma login_service_failure_is_not_invalid_credentials :
  (sign_in_with_password Supabase.service
     (login_data (mkForm "a@example.org" "wrong")) library).1 = None ∧
  result_of (run Supabase.service (login (mkForm "a@example.org" "wrong")) library)
    = Unhandled ∧
  ¬ (∀ (S : Type) (W : world S) (s : S) (form_data : OAuth2PasswordRequestForm),
       (¬ ∃ resp u, (sign_in_with_password W (login_data form_data) s).1 = Some resp ∧
                    user resp = Some u) →
       result_of (run W (login form_data) s) = HTTPError InvalidCredentials).
Proof.
  split; [vm_compute; reflexivity|]. split; [vm_compute; reflexivity|].
  intros H.
  specialize (H _ Supabase.service library (mkForm "a@example.org" "wrong")).
  assert (Hno : ¬ ∃ resp u,
            (sign_in_with_password Supabase.service
               (login_data (mkForm "a@example.org" "wrong")) library).1 = Some resp ∧
            user resp = Some u).
  { intros (resp & u & Hr & _). vm_compute in Hr. discriminate. }
  specialize (H Hno). vm_compute in H. discriminate.
Qed.

(** C6, amended: [login] succeeds exactly when the auth service answers
    with a user object, and the body is then [{access_token}] with the
    session's token, null when there is no session; it fails with
    [InvalidCredentials] (400) exactly when the service answers without
    a user object; and when the service raises instead of answering,
    [login] raises no [HTTPException] at all: the failure passes
    through unhandled. *)
Theorem login_success_iff_user_object :
  ∀ (S : Type) (W : world S) (s : S) (form_data : OAuth2PasswordRequestForm),
    let credentials : gmap string string :=
      <["password" := password form_data]> (<["email" := username form_data]> ∅) in
    let answer := (sign_in_with_password W credentials s).1 in
    let r := result_of (run W (login form_data) s) in
    (∀ body, r = Returned body ↔
       ∃ resp u, answer = Some resp ∧ user resp = Some u ∧
         body = {[ "access_token" :=
                   match session resp with
                   | Some sess => VStr (access_token sess)
                   | None => VNull
                   end ]}) ∧
    (r = HTTPError InvalidCredentials ↔ ∃ resp, answer = Some resp ∧ user resp = None) ∧
    (∀ e, r = HTTPError e → e = InvalidCredentials) ∧
    (r = Unhandled ↔ answer = None).
Proof.
  intros S W s form_data credentials answer r. subst r answer.
  rewrite run_login. fold credentials. unfold login_data. fold credentials. cbn.
  destruct (sign_in_with_password W credentials s) as [[resp|] s1]; cbn.
  - destruct (user resp) as [u|] eqn:Hu.
    + split; [|split; [|split]].
      * intros body. split.
        -- intros [= <-]. exists resp, u. auto.
        -- intros (resp' & u' & [= <-] & _ & ->). reflexivity.
      * split; [discriminate|]. intros (resp' & [= <-] & Hn). congruence.
      * discriminate.
      * split; discriminate.
    + split; [|split; [|split]].
      * intros body. split; [discriminate|].
        intros (resp' & u' & [= <-] & Hu' & _). congruence.
      * split; [eauto|reflexivity].
      * intros e [= <-]. reflexivity.
      * split; discriminate.
  - split; [|split; [|split]].
    + intros body. split; [discriminate|]. intros (? & ? & [=] & _).
    + split; [discriminate|]. intros (? & [=] & _).
    + discriminate.
    + split; reflexivity.
Qed.

(** The sample auth service: a user with a session, a user without
    one, and an answer without a user object. *)
Example login_alice :
  result_of (run Supabase.service (login (mkForm "a@example.org" "pw-a")) library)
    = Returned {[ "access_token" := VStr "token-a" ]}.
Proof. vm_compute. reflexivity. Qed.

Example login_bob_no_session :
  result_of (run Supabase.service (login (mkForm "b@example.org" "pw-b")) library)
    = Returned {[ "access_token" := VNull ]}.
Proof. vm_compute. reflexivity. Qed.

Example login_no_user_object :
  result_of (run Supabase.service (login (mkForm "c@example.org" "pw-c")) library)
    = HTTPError InvalidCredentials.
Proof. vm_compute. reflexivity. Qed.

(** ** Creation *)

Lemma model_dump_user_id book : model_dump book !! "user_id" = None.
Proof. unfold model_dump. by rewrite !lookup_insert_ne. Qed.

Lemma model_dump_name book : model_dump book !! "name" = Some (VStr (name book)).
Proof. unfold model_dump. rewrite lookup_insert_ne by done. apply lookup_insert_eq. Qed.

Lemma model_dump_description book :
  model_dump book !! "description" =
    Some (match description book with Some d => VStr d | None => VNull end).
Proof. unfold model_dump. apply lookup_insert_eq. Qed.

(** C1 (the code departs from the claim): the payload [create_book]
    hands to [insert] is a second [book.model_dump()], not the dict that
    received [user_id]; in every world the inserted payload has no
    [user_id] key.  On the empty sample table Alice's "Dune" is stored
    and returned (the first created row) without an owner. *)
Theorem create_book_insert_omits_user_id :
  (∀ (S : Type) (W : world S) (s : S) (book : BookIn) (current_user : User),
     Forall (insert_without_owner book)
            (calls_of (run W (create_book book current_user) s))) ∧
  (let book := mkBookIn "Dune" (Some "sci-fi") in
   let r := run Supabase.service (create_book book alice) empty_library in
   calls_of r = [EvExecute (name_probe book); EvExecute (tbl_insert (model_dump book))] ∧
   let created := model_dump book ∪ {[ "id" := VStr (str_UUID (mkUUID 1)) ]} in
   result_of r = Returned created ∧
   Supabase.books (state_of r) = [created] ∧
   created !! "name" = Some (VStr "Dune") ∧
   created !! "user_id" = None ∧
   created !! "user_id" ≠ Some (VStr (id alice))).
Proof.
  split.
  - intros S W s book current_user.
    destruct (execute W (name_probe book) s) as [[resp|] s1] eqn:He.
    + destruct (truthy (data resp)) eqn:Ht.
      * rewrite (run_create_book_taken W book current_user s resp s1 He Ht).
        repeat constructor.
      * rewrite (run_create_book_free W book current_user s resp s1 He Ht).
        unfold calls_of. cbn [snd].
        constructor; [exact I|]. constructor; [|constructor].
        split; [reflexivity|apply model_dump_user_id].
    + cbn. rewrite He. repeat constructor.
  - cbv zeta. split; [vm_compute; reflexivity|].
    split; [vm_compute; reflexivity|].
    split; [vm_compute; reflexivity|].
    split; [vm_compute; reflexivity|].
    split; [vm_compute; reflexivity|].
    vm_compute. discriminate.
Qed.

(** ** The duplicate-name guard *)

(** C3: when any row of the table carries the name, whoever owns it,
    [create_book] and [update_book] both fail with [DuplicateName]
    (400); the probe is the only call issued and the table is as it
    was. *)
Theorem duplicate_name_guard_is_global :
  ∀ (s : Supabase.state) (book : BookIn) (current_user : User) (book_id : UUID) (r : row),
    r ∈ Supabase.books s →
    r !! "name" = Some (VStr (name book)) →
    run Supabase.service (create_book book current_user) s
      = (HTTPError DuplicateName, s, [EvExecute (name_probe book)]) ∧
    run Supabase.service (update_book book_id book current_user) s
      = (HTTPError DuplicateName, s, [EvExecute (name_probe book)]).
Proof.
  intros s book current_user book_id r Hr Hn.
  destruct (probe_hit book s r Hr Hn) as (resp & He & Ht).
  split.
  - exact (run_create_book_taken Supabase.service book current_user s resp s He Ht).
  - exact (run_update_book_taken Supabase.service book_id book current_user s resp s He Ht).
Qed.

(** Bob asks for "Dune", a name on a row that Alice owns. *)
Lemma duplicate_name_guard_is_global_witness :
  run Supabase.service (create_book (mkBookIn "Dune" None) bob) library
    = (HTTPError DuplicateName, library, [EvExecute (name_probe (mkBookIn "Dune" None))]) ∧
  run Supabase.service (update_book book_2 (mkBookIn "Dune" None) bob) library
    = (HTTPError DuplicateName, library, [EvExecute (name_probe (mkBookIn "Dune" None))]).
Proof.
  apply (duplicate_name_guard_is_global library (mkBookIn "Dune" None) bob book_2
           (stored book_1 alice "Dune")).
  - left.
  - vm_compute. reflexivity.
Defined.

(** C9: a create or update that fails with [DuplicateName] has issued
    the probe and nothing else, in every world, so neither insert nor
    update reached the table; its state is the one the probe left, and
    on the table service that is the state before the request. *)
Theorem duplicate_name_issues_no_write :
  ∀ (book : BookIn) (current_user : User) (book_id : UUID) (p : handler row),
    p = create_book book current_user ∨ p = update_book book_id book current_user →
    (∀ (S : Type) (W : world S) (s : S),
       result_of (run W p s) = HTTPError DuplicateName →
       calls_of (run W p s) = [EvExecute (name_probe book)] ∧
       state_of (run W p s) = (execute W (name_probe book) s).2) ∧
    (∀ st : Supabase.state,
       result_of (run Supabase.service p st) = HTTPError DuplicateName →
       state_of (run Supabase.service p st) = st).
Proof.
  intros book current_user book_id p Hp.
  assert (Hany : ∀ (S : Type) (W : world S) (s : S),
            result_of (run W p s) = HTTPError DuplicateName →
            calls_of (run W p s) = [EvExecute (name_probe book)] ∧
            state_of (run W p s) = (execute W (name_probe book) s).2).
  { intros S W s.
    destruct (execute W (name_probe book) s) as [[resp|] s1] eqn:He.
    - destruct (truthy (data resp)) eqn:Ht.
      + destruct Hp as [-> | ->].
        * rewrite (run_create_book_taken W book current_user s resp s1 He Ht). auto.
        * rewrite (run_update_book_taken W book_id book current_user s resp s1 He Ht). auto.
      + destruct Hp as [-> | ->].
        * rewrite (run_create_book_free W book current_user s resp s1 He Ht).
          unfold result_of. cbn.
          destruct (execute W _ s1) as [[resp'|] s2]; cbn; [|discriminate].
          destruct (data resp'); discriminate.
        * destruct (utcnow W s1) as [now s2] eqn:Hn.
          rewrite (run_update_book_free W book_id book current_user s resp s1 now s2 He Ht Hn).
          unfold result_of. cbn.
          destruct (execute W _ s2) as [[resp'|] s3]; cbn; [|discriminate].
          destruct (truthy (data resp')); discriminate.
    - destruct Hp as [-> | ->]; cbn; rewrite He; discriminate. }
  split; [exact Hany|].
  intros st Hdup. destruct (Hany _ Supabase.service st Hdup) as [_ ->].
  change (execute Supabase.service) with Supabase.exec.
  rewrite exec_name_probe. reflexivity.
Qed.

(** Bob's rejected create of "Dune" on the sample library. *)
Lemma duplicate_name_issues_no_write_witness :
  let p := create_book (mkBookIn "Dune" None) bob in
  result_of (run Supabase.service p library) = HTTPError DuplicateName ∧
  calls_of (run Supabase.service p library) = [EvExecute (name_probe (mkBookIn "Dune" None))] ∧
  state_of (run Supabase.service p library) = library.
Proof.
  pose proof (duplicate_name_issues_no_write (mkBookIn "Dune" None) bob book_2
                (create_book (mkBookIn "Dune" None) bob) (or_introl eq_refl)) as [Hany Hst].
  assert (Hdup : result_of (run Supabase.service (create_book (mkBookIn "Dune" None) bob) library)
                 = HTTPError DuplicateName) by (vm_compute; reflexivity).
  split; [exact Hdup|]. split.
  - exact (proj1 (Hany _ Supabase.service library Hdup)).
  - exact (Hst library Hdup).
Defined.

(** C10: an update that keeps the current name of a book the caller
    owns fails with [DuplicateName], because the probe finds the book's
    own row; and an update that succeeds used a name that no row of the
    table carried. *)
Theorem update_keeping_name_is_rejected :
  ∀ (st : Supabase.state) (book_id : UUID) (current_user : User) (r : row)
    (n : string) (d : option string),
    r ∈ Supabase.books st →
    r !! "id" = Some (VStr (str_UUID book_id)) →
    r !! "user_id" = Some (VStr (id current_user)) →
    r !! "name" = Some (VStr n) →
    run Supabase.service (update_book book_id (mkBookIn n d) current_user) st
      = (HTTPError DuplicateName, st, [EvExecute (name_probe (mkBookIn n d))]) ∧
    (∀ book,
       result_of (run Supabase.service (update_book book_id book current_user) st)
         = Returned ∅ →
       Forall (λ r', r' !! "name" ≠ Some (VStr (name book))) (Supabase.books st)).
Proof.
  intros st book_id current_user r n d Hr _ _ Hn. split.
  - destruct (probe_hit (mkBookIn n d) st r Hr Hn) as (resp & He & Ht).
    exact (run_update_book_taken Supabase.service book_id _ current_user st resp st He Ht).
  - intros book Hok.
    pose proof (exec_name_probe book st) as He.
    set (resp := mkAPIResponse _) in He.
    destruct (truthy (data resp)) eqn:Ht.
    + rewrite (run_update_book_taken Supabase.service book_id book current_user
                 st resp st He Ht) in Hok. discriminate.
    + exact (probe_empty_inv book st resp st He Ht).
Qed.

(** Alice changes only the description of her "Dune". *)
Lemma update_keeping_name_is_rejected_witness :
  run Supabase.service (update_book book_1 (mkBookIn "Dune" (Some "a classic")) alice) library
    = (HTTPError DuplicateName, library,
       [EvExecute (name_probe (mkBookIn "Dune" (Some "a classic")))]).
Proof.
  refine (proj1 (update_keeping_name_is_rejected library book_1 alice
                   (stored book_1 alice "Dune") "Dune" (Some "a classic") _ _ _ _)).
  - left.
  - vm_compute. reflexivity.
  - vm_compute. reflexivity.
  - vm_compute. reflexivity.
Defined.

(** ** Books of other users *)

Lemma no_row_of_caller s book_id current_user :
  owned_by_other s book_id current_user ∨ absent s book_id →
  ∀ r, r ∈ Supabase.books s →
    Supabase.matches [("id", str_UUID book_id); ("user_id", id current_user)] r = false.
Proof.
  intros H r Hr. destruct (Supabase.matches _ r) eqn:E; [|reflexivity].
  apply matches_two in E as [Hid Hu]. exfalso.
  unfold owned_by_other, absent in H.
  destruct H as [[_ H] | H]; rewrite Forall_forall in H; specialize (H r Hr);
    [exact (H Hid Hu) | exact (H Hid)].
Qed.

Lemma exec_delete_unmatched s book_id current_user :
  owned_by_other s book_id current_user ∨ absent s book_id →
  Supabase.exec (delete_query book_id current_user) s = (Some (mkAPIResponse []), s).
Proof.
  intros H. pose proof (no_row_of_caller s book_id current_user H) as Hno.
  unfold Supabase.exec, delete_query. cbn [q_op q_filters].
  rewrite filter_none by exact Hno.
  rewrite filter_all, state_eta; [reflexivity|].
  intros r Hr. by rewrite Hno.
Qed.

Lemma exec_update_unmatched s book_id book current_user now :
  owned_by_other s book_id current_user ∨ absent s book_id →
  Supabase.exec (update_query book_id book current_user now) s
    = (Some (mkAPIResponse []), s).
Proof.
  intros H. pose proof (no_row_of_caller s book_id current_user H) as Hno.
  unfold Supabase.exec, update_query. cbn [q_op q_filters].
  rewrite filter_none by exact Hno.
  rewrite fmap_unhit by exact Hno. rewrite state_eta. reflexivity.
Qed.

(** C4 as stated fails for [update_book]: Bob's update of Alice's book
    with a name that is taken answers [DuplicateName] (400), not
    [NotFound]. *)
Lemma update_of_foreign_book_not_always_not_found :
  owned_by_other library book_1 bob ∧
  result_of (run Supabase.service (update_book book_1 (mkBookIn "Dune" None) bob) library)
    = HTTPError DuplicateName ∧
  ¬ (∀ (s : Supabase.state) (book_id : UUID) (book : BookIn) (current_user : User),
       owned_by_other s book_id current_user →
       result_of (run Supabase.service (update_book book_id book current_user) s)
         = HTTPError NotFound).
Proof.
  assert (Ho : owned_by_other library book_1 bob).
  { split.
    - apply Exists_cons_hd. vm_compute. reflexivity.
    - repeat constructor; vm_compute; intros; discriminate. }
  split; [exact Ho|]. split; [vm_compute; reflexivity|].
  intros H. specialize (H library book_1 (mkBookIn "Dune" None) bob Ho).
  vm_compute in H. discriminate.
Qed.

(** C4, amended: when the row with this id belongs to another user,
    [delete_book] fails with [NotFound] (404), and so does [update_book]
    whenever the request passes the duplicate-name guard; the answer,
    the calls and the untouched table are the same as when no row has
    this id. *)
Theorem foreign_or_missing_book_is_not_found :
  ∀ (s : Supabase.state) (book_id : UUID) (current_user : User),
    owned_by_other s book_id current_user ∨ absent s book_id →
    run Supabase.service (delete_book book_id current_user) s
      = (HTTPError NotFound, s,
         [EvExecute (mkQuery Delete [("id", str_UUID book_id); ("user_id", id current_user)]
                             None None)]) ∧
    (∀ book,
       Forall (λ r, r !! "name" ≠ Some (VStr (name book))) (Supabase.books s) →
       run Supabase.service (update_book book_id book current_user) s
         = (HTTPError NotFound, s,
            [EvExecute (name_probe book); EvUtcNow;
             EvExecute (update_query book_id book current_user (Supabase.clock s))])).
Proof.
  intros s book_id current_user H. split.
  - rewrite run_delete_book. cbv zeta.
    change (execute Supabase.service) with Supabase.exec.
    rewrite (exec_delete_unmatched s book_id current_user H). reflexivity.
  - intros book Hfree.
    rewrite (run_update_book_free Supabase.service book_id book current_user
               s (mkAPIResponse []) s (Supabase.clock s) s
               (probe_miss book s Hfree) eq_refl eq_refl).
    cbv zeta. change (execute Supabase.service) with Supabase.exec.
    rewrite (exec_update_unmatched s book_id book current_user (Supabase.clock s) H).
    reflexivity.
Qed.

(** Bob against Alice's book 1, and against an id no row has. *)
Lemma foreign_or_missing_book_is_not_found_witness :
  run Supabase.service (delete_book book_1 bob) library
    = (HTTPError NotFound, library, [EvExecute (delete_query book_1 bob)]) ∧
  run Supabase.service (delete_book (mkUUID 9) bob) library
    = (HTTPError NotFound, library, [EvExecute (delete_query (mkUUID 9) bob)]) ∧
  result_of (run Supabase.service (update_book book_1 (mkBookIn "Persuasion" None) bob) library)
    = HTTPError NotFound.
Proof.
  assert (Ho : owned_by_other library book_1 bob).
  { split.
    - apply Exists_cons_hd. vm_compute. reflexivity.
    - repeat constructor; vm_compute; intros; discriminate. }
  assert (Ha : absent library (mkUUID 9)).
  { repeat constructor; vm_compute; discriminate. }
  split; [|split].
  - exact (proj1 (foreign_or_missing_book_is_not_found library book_1 bob (or_introl Ho))).
  - exact (proj1 (foreign_or_missing_book_is_not_found library (mkUUID 9) bob (or_intror Ha))).
  - rewrite (proj2 (foreign_or_missing_book_is_not_found library book_1 bob (or_introl Ho))
               (mkBookIn "Persuasion" None)); [reflexivity|].
    repeat constructor; vm_compute; discriminate.
Defined.

(** ** Validation of the request body *)

(** C5 as stated fails: the empty name passes validation, and the
    handler body runs (here up to the insert). *)
Lemma empty_name_is_accepted :
  validate_BookIn empty_name_body = Some (mkBookIn "" None) ∧
  calls_of (run Supabase.service (post_book empty_name_body alice) empty_library)
    = [EvExecute (name_probe (mkBookIn "" None));
       EvExecute (tbl_insert (model_dump (mkBookIn "" None)))] ∧
  ¬ (∀ (b : body) (book : BookIn),
       validate_BookIn b = Some book →
       name book ≠ "" ∧ (len (name book) <= 100)%nat).
Proof.
  split; [reflexivity|]. split; [vm_compute; reflexivity|].
  intros H. destruct (H empty_name_body (mkBookIn "" None) eq_refl) as [Hne _].
  by apply Hne.
Qed.

Lemma validate_name_Some f n :
  validate_name f = Some n ↔ f = Some (JString n) ∧ (len n <= 100)%nat.
Proof.
  unfold validate_name. split.
  - destruct f as [[| | |s| |]|]; try discriminate.
    destruct (Nat.leb (len s) 100) eqn:E; [|discriminate].
    intros [= ->]. split; [reflexivity|by apply Nat.leb_le].
  - intros [-> Hle]. apply Nat.leb_le in Hle. by rewrite Hle.
Qed.

(** The bound counts characters, not bytes: one hundred three-byte
    characters pass, one hundred and one do not. *)
Example len_counts_characters :
  len "日" = 1%nat ∧ String.length "日" = 3%nat ∧ len "é" = 1%nat ∧
  len (times 100 "日") = 100%nat ∧
  validate_name (Some (JString (times 100 "日"))) = Some (times 100 "日") ∧
  validate_name (Some (JString (times 101 "日"))) = None ∧
  validate_name (Some (JString (times 101 "x"))) = None.
Proof. repeat split; vm_compute; reflexivity. Qed.

(** C5, amended: validation accepts the name exactly when it is a
    string of at most 100 characters, the empty string included; a body
    whose name is missing, not a string, or longer than 100 characters
    fails the validation of the [BookIn] the handler is called with. *)
Theorem name_accepted_iff_at_most_100 :
  ∀ (b : body),
    (∀ n, validate_name (body_name b) = Some n ↔
          body_name b = Some (JString n) ∧ (len n <= 100)%nat) ∧
    (∀ book, validate_BookIn b = Some book →
             body_name b = Some (JString (name book)) ∧
             (len (name book) <= 100)%nat) ∧
    (∀ n, body_name b = Some (JString n) → (100 < len n)%nat →
          validate_BookIn b = None) ∧
    ((∀ n, body_name b ≠ Some (JString n)) → validate_BookIn b = None) ∧
    (body_name b = Some (JString "") → validate_name (body_name b) = Some "").
Proof.
  intros b. split; [|split; [|split; [|split]]].
  - intros n. apply validate_name_Some.
  - intros book. unfold validate_BookIn.
    destruct (validate_name (body_name b)) as [n|] eqn:Hn; [|discriminate].
    destruct (validate_description (body_description b)); [|discriminate].
    intros [= <-]. cbn. by apply validate_name_Some.
  - intros n Hb Hlen. unfold validate_BookIn.
    destruct (validate_name (body_name b)) as [n'|] eqn:Hn; [|reflexivity].
    apply validate_name_Some in Hn as [Hb' Hle]. rewrite Hb in Hb'.
    injection Hb' as ->. lia.
  - intros Hno. unfold validate_BookIn.
    destruct (validate_name (body_name b)) as [n'|] eqn:Hn; [|reflexivity].
    apply validate_name_Some in Hn as [Hb' _]. by destruct (Hno n').
  - intros Hb. apply validate_name_Some. split; [exact Hb|cbn; lia].
Qed.

(** ** Update *)

Lemma length_append (a b : string) :
  String.length (a +:+ b) = (String.length a + String.length b)%nat.
Proof.
  induction a as [|c a IH]; [reflexivity|].
  change (S (String.length (a +:+ b)) = S (String.length a + String.length b)).
  by rewrite IH.
Qed.

Lemma append_assoc (a b c : string) : (a +:+ b) +:+ c = a +:+ (b +:+ c).
Proof.
  induction a as [|x a IH]; [reflexivity|].
  change (String x ((a +:+ b) +:+ c) = String x (a +:+ (b +:+ c))).
  by rewrite IH.
Qed.

Lemma length_fixed_digits base width n :
  String.length (fixed_digits base width n) = width.
Proof.
  revert n. induction width as [|w IH]; intros n; cbn [fixed_digits]; [reflexivity|].
  rewrite length_append, IH. cbn. lia.
Qed.

(** The text written to [updated_at]: 25 characters, or 32 with the
    microseconds, always ending in the UTC offset. *)
Lemma isoformat_shape t :
  String.length (isoformat t) = (if (microsecond t =? 0)%N then 25 else 32)%nat ∧
  ∃ local_part, isoformat t = local_part +:+ "+00:00".
Proof.
  unfold isoformat. split.
  - destruct (microsecond t =? 0)%N;
      rewrite ?length_append, ?length_fixed_digits; reflexivity.
  - eexists. rewrite <- !append_assoc. reflexivity.
Qed.

(** ** The formats read back *)

Lemma digit_value_digit_char (d : N) :
  (d < 16)%N → digit_value (digit_char d) = Some d.
Proof.
  intros H. destruct d as [|p]; [reflexivity|].
  do 4 (destruct p as [p|p|]; try reflexivity); lia.
Qed.

Lemma parse_digits_from_app base acc (a b : string) :
  parse_digits_from base acc (a +:+ b) =
    parse_digits_from base acc a ≫= λ x, parse_digits_from base x b.
Proof.
  revert acc. induction a as [|c a IH]; intros acc; [reflexivity|].
  change (String c a +:+ b) with (String c (a +:+ b)). cbn [parse_digits_from].
  destruct (digit_value c) as [d|]; [|reflexivity].
  destruct (d <? base)%N; [apply IH|reflexivity].
Qed.

Lemma parse_fixed_digits base width n acc :
  (1 < base <= 16)%N →
  parse_digits_from base acc (fixed_digits base width n)
    = Some (acc * base ^ N.of_nat width + n mod base ^ N.of_nat width)%N.
Proof.
  intros Hb. revert n acc. induction width as [|w IH]; intros n acc.
  - cbn. f_equal. rewrite N.mod_1_r. lia.
  - cbn [fixed_digits]. rewrite parse_digits_from_app, IH. cbn [mbind option_bind].
    cbn [parse_digits_from].
    assert (Hd : (n mod base < base)%N) by (apply N.mod_lt; lia).
    rewrite digit_value_digit_char by lia.
    apply N.ltb_lt in Hd as Hd'. rewrite Hd'. f_equal.
    rewrite Nat2N.inj_succ, N.pow_succ_r'.
    rewrite (N.Div0.mod_mul_r n base (base ^ N.of_nat w)). lia.
Qed.

Lemma parse_digits_fixed base width n :
  (1 < base <= 16)%N → (n < base ^ N.of_nat width)%N →
  parse_digits base (fixed_digits base width n) = Some n.
Proof.
  intros Hb Hn. unfold parse_digits. rewrite parse_fixed_digits by done.
  f_equal. rewrite N.mod_small by done. lia.
Qed.

(** A string of known length is that many characters. *)
Lemma two_chars (s : string) :
  String.length s = 2%nat → ∃ a b, s = String a (String b "").
Proof. intros H. do 2 (destruct s as [|? s]; [discriminate H|]). destruct s; [eauto|discriminate H]. Qed.

Lemma four_chars (s : string) :
  String.length s = 4%nat → ∃ a b c d, s = String a (String b (String c (String d ""))).
Proof.
  intros H. do 4 (destruct s as [|? s]; [discriminate H|]).
  destruct s; [|discriminate H]. do 4 eexists. reflexivity.
Qed.

Lemma six_chars (s : string) :
  String.length s = 6%nat →
  ∃ a b c d e f, s = String a (String b (String c (String d (String e (String f ""))))).
Proof.
  intros H. do 6 (destruct s as [|? s]; [discriminate H|]).
  destruct s; [|discriminate H]. do 6 eexists. reflexivity.
Qed.

(** Reading an ISO text written by [isoformat] gives the datetime back:
    the text holds the whole clock reading, in the ISO-8601 layout. *)
Lemma fromisoformat_isoformat t :
  valid_datetime t → fromisoformat (isoformat t) = Some t.
Proof.
  intros (Hy & Hmo & Hd & Hh & Hmi & Hs & Hus). destruct t as [y mo d h mi se us].
  cbn [year month day hour minute second microsecond] in *.
  pose proof (parse_digits_fixed 10 4 y ltac:(lia) ltac:(cbn; lia)) as Py.
  pose proof (parse_digits_fixed 10 2 mo ltac:(lia) ltac:(cbn; lia)) as Pmo.
  pose proof (parse_digits_fixed 10 2 d ltac:(lia) ltac:(cbn; lia)) as Pd.
  pose proof (parse_digits_fixed 10 2 h ltac:(lia) ltac:(cbn; lia)) as Ph.
  pose proof (parse_digits_fixed 10 2 mi ltac:(lia) ltac:(cbn; lia)) as Pmi.
  pose proof (parse_digits_fixed 10 2 se ltac:(lia) ltac:(cbn; lia)) as Ps.
  pose proof (parse_digits_fixed 10 6 us ltac:(lia) ltac:(cbn; lia)) as Pus.
  unfold isoformat. cbn [year month day hour minute second microsecond].
  destruct (four_chars _ (length_fixed_digits 10 4 y)) as (y1 & y2 & y3 & y4 & Ey).
  destruct (two_chars _ (length_fixed_digits 10 2 mo)) as (o1 & o2 & Emo).
  destruct (two_chars _ (length_fixed_digits 10 2 d)) as (d1 & d2 & Ed).
  destruct (two_chars _ (length_fixed_digits 10 2 h)) as (h1 & h2 & Eh).
  destruct (two_chars _ (length_fixed_digits 10 2 mi)) as (m1 & m2 & Emi).
  destruct (two_chars _ (length_fixed_digits 10 2 se)) as (s1 & s2 & Es).
  destruct (six_chars _ (length_fixed_digits 10 6 us)) as (u1 & u2 & u3 & u4 & u5 & u6 & Eus).
  rewrite Ey, Emo, Ed, Eh, Emi, Es in *.
  destruct (us =? 0)%N eqn:E0.
  - apply N.eqb_eq in E0. subst us.
    unfold fromisoformat. cbv beta iota fix delta [String.append]. cbn -[parse_digits].
    rewrite Py, Pmo, Pd, Ph, Pmi, Ps. reflexivity.
  - rewrite Eus in *.
    unfold fromisoformat. cbv beta iota fix delta [String.append]. cbn -[parse_digits].
    rewrite Py, Pmo, Pd, Ph, Pmi, Ps. cbn -[parse_digits].
    rewrite Pus. reflexivity.
Qed.

Lemma isoformat_inj t1 t2 :
  valid_datetime t1 → valid_datetime t2 → isoformat t1 = isoformat t2 → t1 = t2.
Proof.
  intros H1 H2 E. apply fromisoformat_isoformat in H1, H2.
  rewrite E in H1. congruence.
Qed.

(** Reading a UUID text written by [str_UUID] gives the UUID back, so
    two different book ids never share a filter text. *)
Lemma parse_UUID_str_UUID u : valid_UUID u → parse_UUID (str_UUID u) = Some u.
Proof.
  destruct u as [n]. unfold valid_UUID, str_UUID, parse_UUID. cbn [uuid_int]. intros H.
  pose proof (parse_digits_fixed 16 32 n ltac:(lia) ltac:(exact H)) as P.
  pose proof (length_fixed_digits 16 32 n) as L. cbv zeta.
  set (hex := fixed_digits 16 32 n) in *. clearbody hex.
  do 32 (destruct hex as [|? hex]; [discriminate L|]).
  destruct hex; [|discriminate L].
  cbv beta iota fix delta [String.append]. cbn -[parse_digits].
  rewrite P. reflexivity.
Qed.

Lemma str_UUID_inj u1 u2 :
  valid_UUID u1 → valid_UUID u2 → str_UUID u1 = str_UUID u2 → u1 = u2.
Proof.
  intros H1 H2 E. apply parse_UUID_str_UUID in H1, H2.
  rewrite E in H1. congruence.
Qed.

(** C7: an [update_book] that passes the guard reads the clock and then
    issues one update, filtered on [id = str(book_id)] and
    [user_id = current_user.id]; its payload holds [name], [description]
    and [updated_at], the clock reading just taken written in ISO-8601
    at offset +00:00: reading that text back gives the clock reading
    itself, so two different readings never give the same stamp.  The
    id filter likewise names one book id only.  On the table that
    update rewrites the rows matching both filters and no other. *)
Theorem update_book_scoped_and_stamped :
  ∀ (S : Type) (W : world S) (s s1 s2 : S) (resp : APIResponse) (now : datetime)
    (book_id : UUID) (book : BookIn) (current_user : User),
    execute W (name_probe book) s = (Some resp, s1) →
    data resp = [] →
    utcnow W s1 = (now, s2) →
    let payload := <["updated_at" := VStr (isoformat now)]> (model_dump book) in
    let q := mkQuery (Update payload)
                     [("id", str_UUID book_id); ("user_id", id current_user)] None None in
    calls_of (run W (update_book book_id book current_user) s)
      = [EvExecute (name_probe book); EvUtcNow; EvExecute q] ∧
    payload !! "name" = Some (VStr (name book)) ∧
    payload !! "description" =
      Some (match description book with Some d => VStr d | None => VNull end) ∧
    payload !! "updated_at" = Some (VStr (isoformat now)) ∧
    (∃ local_part, isoformat now = local_part +:+ "+00:00") ∧
    (∀ st : Supabase.state,
       Supabase.books (Supabase.exec q st).2 =
         (λ r, if bool_decide (r !! "id" = Some (VStr (str_UUID book_id)) ∧
                               r !! "user_id" = Some (VStr (id current_user)))
               then payload ∪ r else r) <$> Supabase.books st) ∧
    (valid_datetime now →
       fromisoformat (isoformat now) = Some now ∧
       String.length (isoformat now) = (if (microsecond now =? 0)%N then 25 else 32)%nat ∧
       ∀ t, valid_datetime t → isoformat t = isoformat now → t = now) ∧
    (valid_UUID book_id →
       parse_UUID (str_UUID book_id) = Some book_id ∧
       ∀ other, valid_UUID other → str_UUID other = str_UUID book_id → other = book_id).
Proof.
  intros S W s s1 s2 resp now book_id book current_user He Hd Hn payload q.
  assert (Ht : truthy (data resp) = false) by (rewrite Hd; reflexivity).
  split; [|split; [|split; [|split; [|split; [|split; [|split]]]]]];
    [| | | | | |
     intros Hv; split; [by apply fromisoformat_isoformat|];
       split; [apply isoformat_shape|];
       intros t Ht' E; by apply isoformat_inj
    |intros Hv; split; [by apply parse_UUID_str_UUID|];
       intros other Ho E; by apply str_UUID_inj].
  - rewrite (run_update_book_free W book_id book current_user s resp s1 now s2 He Ht Hn).
    reflexivity.
  - subst payload. rewrite lookup_insert_ne by done. apply model_dump_name.
  - subst payload. rewrite lookup_insert_ne by done. apply model_dump_description.
  - subst payload. apply lookup_insert_eq.
  - apply isoformat_shape.
  - intros st. unfold Supabase.exec. cbn [q q_op q_filters snd Supabase.books Supabase.set_books].
    apply list_fmap_ext. intros _ r _.
    destruct (Supabase.matches _ r) eqn:E.
    + apply matches_two in E. by rewrite bool_decide_eq_true_2.
    + rewrite bool_decide_eq_false_2; [reflexivity|].
      intros Hm. apply matches_two in Hm. congruence.
Qed.

(** Alice renames her "Dune" to "Dune2" at noon; Bob's row is untouched. *)
Lemma update_book_scoped_and_stamped_witness :
  let book := mkBookIn "Dune2" None in
  let payload := <["updated_at" := VStr "2024-03-07T12:00:00+00:00"]> (model_dump book) in
  calls_of (run Supabase.service (update_book book_1 book alice) library)
    = [EvExecute (name_probe book); EvUtcNow;
       EvExecute (mkQuery (Update payload)
                    [("id", str_UUID book_1); ("user_id", id alice)] None None)] ∧
  Supabase.books (state_of (run Supabase.service (update_book book_1 book alice) library))
    = [payload ∪ stored book_1 alice "Dune"; stored book_2 bob "Emma"] ∧
  isoformat noon = "2024-03-07T12:00:00+00:00" ∧
  fromisoformat (isoformat noon) = Some noon ∧
  parse_UUID (str_UUID book_1) = Some book_1.
Proof.
  cbv zeta.
  pose proof (update_book_scoped_and_stamped _ Supabase.service library library library
                (mkAPIResponse []) noon book_1 (mkBookIn "Dune2" None) alice) as H.
  cbv zeta in H.
  destruct H as (Hcalls & _ & _ & _ & _ & _ & Hstamp & Hid).
  - vm_compute. reflexivity.
  - reflexivity.
  - reflexivity.
  - split; [exact Hcalls|]. split; [vm_compute; reflexivity|].
    split; [vm_compute; reflexivity|]. split.
    + apply Hstamp. unfold valid_datetime, noon. cbn. lia.
    + apply Hid. unfold valid_UUID, book_1. cbn. lia.
Defined.

(** ** Further properties of the handlers, in any world *)

Lemma dom_model_dump book :
  dom (model_dump book) = ({["name"; "description"]} : gset string).
Proof. unfold model_dump. rewrite !dom_insert_L, dom_empty_L. set_solver. Qed.

Lemma dom_update_payload book now :
  dom (update_payload book now) = ({["name"; "description"; "updated_at"]} : gset string).
Proof. unfold update_payload. rewrite dom_insert_L, dom_model_dump. set_solver. Qed.

(** X1: [login] makes one call, the sign-in, with the form's username under
    the key [email] and its password under [password] and no other
    key; it never reaches the table service. *)
Theorem login_sends_username_as_email :
  ∀ (S : Type) (W : world S) (s : S) (form_data : OAuth2PasswordRequestForm),
    ∃ credentials : gmap string string,
      calls_of (run W (login form_data) s) = [EvSignIn credentials] ∧
      state_of (run W (login form_data) s) = (sign_in_with_password W credentials s).2 ∧
      credentials !! "email" = Some (username form_data) ∧
      credentials !! "password" = Some (password form_data) ∧
      dom credentials = ({["email"; "password"]} : gset string).
Proof.
  intros S W s form_data. exists (login_data form_data).
  rewrite run_login. cbv zeta. unfold calls_of, state_of. cbn [fst snd].
  split; [reflexivity|]. split; [reflexivity|]. unfold login_data.
  split; [by rewrite lookup_insert_ne, lookup_insert_eq|].
  split; [by rewrite lookup_insert_eq|].
  rewrite !dom_insert_L, dom_empty_L. set_solver.
Qed.

(** X2: once the guard is passed, [create_book] answers with the first row
    of the insert's answer, whatever rows follow it, and with
    400 "Something went wrong" exactly when that answer has no row. *)
Theorem create_book_returns_first_row :
  ∀ (S : Type) (W : world S) (s s1 s2 : S) (probe answer : APIResponse)
    (book : BookIn) (current_user : User),
    execute W (name_probe book) s = (Some probe, s1) →
    data probe = [] →
    execute W (tbl_insert (model_dump book)) s1 = (Some answer, s2) →
    state_of (run W (create_book book current_user) s) = s2 ∧
    (∀ r rest, data answer = r :: rest →
       result_of (run W (create_book book current_user) s) = Returned r) ∧
    (result_of (run W (create_book book current_user) s)
       = HTTPError (mkHTTPException 400 "Something went wrong") ↔ data answer = []).
Proof.
  intros S W s s1 s2 probe answer book current_user Hp Hd Hi.
  assert (Ht : truthy (data probe) = false) by (rewrite Hd; reflexivity).
  rewrite (run_create_book_free W book current_user s probe s1 Hp Ht).
  cbv zeta. rewrite Hi. unfold state_of, result_of. cbn [fst snd].
  split; [reflexivity|]. split.
  - intros r rest ->. reflexivity.
  - destruct (data answer); split; intros H; try reflexivity; discriminate.
Qed.

(** In a world whose insert answers with two rows, the first is returned. *)
Lemma create_book_returns_first_row_witness :
  result_of (run two_row_world (create_book (mkBookIn "Dune" None) alice) tt)
    = Returned {[ "name" := VStr "first" ]}.
Proof.
  refine (proj1 (proj2 (create_book_returns_first_row unit two_row_world tt tt tt
                          (mkAPIResponse [])
                          (mkAPIResponse [ {[ "name" := VStr "first" ]};
                                           {[ "name" := VStr "second" ]} ])
                          (mkBookIn "Dune" None) alice _ _ _))
                {[ "name" := VStr "first" ]} [ {[ "name" := VStr "second" ]} ] _);
    reflexivity.
Defined.

(** X3: [delete_book] makes one call, the delete filtered on
    [id = str(book_id)] and [user_id = current_user.id]; it answers [{}]
    exactly when the service reports a deleted row and [NotFound]
    exactly when it reports none. *)
Theorem delete_book_outcome :
  ∀ (S : Type) (W : world S) (s s1 : S) (answer : APIResponse)
    (book_id : UUID) (current_user : User),
    let q := mkQuery Delete [("id", str_UUID book_id); ("user_id", id current_user)]
                     None None in
    execute W q s = (Some answer, s1) →
    run W (delete_book book_id current_user) s
      = (if truthy (data answer) then Returned ∅ else HTTPError NotFound, s1, [EvExecute q]) ∧
    (result_of (run W (delete_book book_id current_user) s) = Returned ∅
       ↔ data answer ≠ []) ∧
    (result_of (run W (delete_book book_id current_user) s) = HTTPError NotFound
       ↔ data answer = []).
Proof.
  intros S W s s1 answer book_id current_user q He.
  rewrite run_delete_book. cbv zeta. fold q. unfold delete_query. fold q.
  rewrite He. unfold result_of. cbn [fst snd].
  split; [reflexivity|].
  destruct (data answer); cbn; split; split; intros H; try done.
Qed.

(** Alice deletes her "Dune" in the sample library. *)
Lemma delete_book_outcome_witness :
  result_of (run Supabase.service (delete_book book_1 alice) library) = Returned ∅.
Proof.
  pose proof (delete_book_outcome _ Supabase.service library
                (Supabase.mkState [stored book_2 bob "Emma"] 3 noon known_accounts)
                (mkAPIResponse [stored book_1 alice "Dune"]) book_1 alice) as H.
  cbv zeta in H. destruct H as (_ & Hok & _); [vm_compute; reflexivity|].
  apply Hok. discriminate.
Defined.

(** X4: no handler steps outside its own kind of call, whatever the world
    answers: [login] only signs in; [list_book] only selects;
    [create_book] selects and inserts a payload whose keys are [name]
    and [description]; [update_book] selects, reads the clock and
    updates, with the keys [name], [description], [updated_at] and the
    two ownership filters; [delete_book] only deletes, with the same
    two filters.  So no request body can set [id] or [user_id], and no
    write other than the insert goes out without the ownership filter. *)
Theorem handlers_issue_only_their_calls :
  ∀ (S : Type) (W : world S) (s : S) (form_data : OAuth2PasswordRequestForm)
    (page limit : Z) (book : BookIn) (book_id : UUID) (current_user : User),
    Forall (λ ev, ∃ c, ev = EvSignIn c) (calls_of (run W (login form_data) s)) ∧
    Forall is_select (calls_of (run W (list_book current_user page limit) s)) ∧
    Forall (λ ev, is_select ev ∨ is_plain_insert ev)
           (calls_of (run W (create_book book current_user) s)) ∧
    Forall (λ ev, is_select ev ∨ ev = EvUtcNow ∨ is_update_of book_id current_user ev)
           (calls_of (run W (update_book book_id book current_user) s)) ∧
    Forall (is_delete_of book_id current_user)
           (calls_of (run W (delete_book book_id current_user) s)).
Proof.
  intros S W s form_data page limit book book_id current_user.
  assert (Hsel : is_select (EvExecute (name_probe book))) by exact I.
  split; [|split; [|split; [|split]]].
  - rewrite run_login. repeat constructor. eauto.
  - rewrite run_list_book. repeat constructor.
  - destruct (execute W (name_probe book) s) as [[resp|] s1] eqn:He.
    + destruct (truthy (data resp)) eqn:Ht.
      * rewrite (run_create_book_taken W book current_user s resp s1 He Ht).
        constructor; [by left|constructor].
      * rewrite (run_create_book_free W book current_user s resp s1 He Ht).
        unfold calls_of. cbn [snd].
        constructor; [by left|]. constructor; [|constructor].
        right. split; [apply dom_model_dump|reflexivity].
    + cbn. rewrite He. constructor; [by left|constructor].
  - destruct (execute W (name_probe book) s) as [[resp|] s1] eqn:He.
    + destruct (truthy (data resp)) eqn:Ht.
      * rewrite (run_update_book_taken W book_id book current_user s resp s1 He Ht).
        constructor; [by left|constructor].
      * destruct (utcnow W s1) as [now s2] eqn:Hn.
        rewrite (run_update_book_free W book_id book current_user s resp s1 now s2 He Ht Hn).
        unfold calls_of. cbn [snd].
        constructor; [by left|]. constructor; [by right; left|].
        constructor; [|constructor].
        right; right. split; [apply dom_update_payload|reflexivity].
    + cbn. rewrite He. constructor; [by left|constructor].
  - rewrite run_delete_book. unfold calls_of. cbn [snd].
    constructor; [reflexivity|constructor].
Qed.

(** X5: the errors the handlers raise themselves are a closed set, whatever
    the world answers: [list_book] raises none; [create_book] raises
    [DuplicateName] or 400 "Something went wrong"; [update_book] raises
    [DuplicateName] or [NotFound]; [delete_book] raises [NotFound]
    only.  Every status is 400 or 404. *)
Theorem handler_errors_are_closed :
  ∀ (S : Type) (W : world S) (s : S) (page limit : Z) (book : BookIn)
    (book_id : UUID) (current_user : User) (e : HTTPException),
    (result_of (run W (list_book current_user page limit) s) ≠ HTTPError e) ∧
    (result_of (run W (create_book book current_user) s) = HTTPError e →
       e = DuplicateName ∨ e = mkHTTPException 400 "Something went wrong") ∧
    (result_of (run W (update_book book_id book current_user) s) = HTTPError e →
       e = DuplicateName ∨ e = NotFound) ∧
    (result_of (run W (delete_book book_id current_user) s) = HTTPError e →
       e = NotFound).
Proof.
  intros S W s page limit book book_id current_user e.
  split; [|split; [|split]].
  - rewrite run_list_book. cbv zeta. unfold result_of. cbn [fst].
    destruct (execute W _ s).1; discriminate.
  - destruct (execute W (name_probe book) s) as [[resp|] s1] eqn:He.
    + destruct (truthy (data resp)) eqn:Ht.
      * rewrite (run_create_book_taken W book current_user s resp s1 He Ht).
        intros [= <-]. by left.
      * rewrite (run_create_book_free W book current_user s resp s1 He Ht).
        cbv zeta. unfold result_of. cbn [fst].
        destruct (execute W _ s1).1 as [resp'|]; [|discriminate].
        destruct (data resp'); [|discriminate]. intros [= <-]. by right.
    + cbn. rewrite He. discriminate.
  - destruct (execute W (name_probe book) s) as [[resp|] s1] eqn:He.
    + destruct (truthy (data resp)) eqn:Ht.
      * rewrite (run_update_book_taken W book_id book current_user s resp s1 He Ht).
        intros [= <-]. by left.
      * destruct (utcnow W s1) as [now s2] eqn:Hn.
        rewrite (run_update_book_free W book_id book current_user s resp s1 now s2 He Ht Hn).
        cbv zeta. unfold result_of. cbn [fst].
        destruct (execute W _ s2).1 as [resp'|]; [|discriminate].
        destruct (truthy (data resp')); [discriminate|]. intros [= <-]. by right.
    + cbn. rewrite He. discriminate.
  - rewrite run_delete_book. cbv zeta. unfold result_of. cbn [fst].
    destruct (execute W _ s).1 as [resp|]; [|discriminate].
    destruct (truthy (data resp)); [discriminate|]. by intros [= <-].
Qed.

(** ** Further properties on the table service *)

Lemma matches_own book_id current_user r :
  Supabase.matches (own_filters book_id current_user) r = true ↔
  is_own book_id current_user r.
Proof. apply matches_two. Qed.

Lemma matches_own_false book_id current_user r :
  Supabase.matches (own_filters book_id current_user) r = false ↔
  ¬ is_own book_id current_user r.
Proof.
  rewrite <- matches_own. destruct (Supabase.matches _ r); split; done.
Qed.

Lemma exec_delete_query s book_id current_user :
  Supabase.exec (delete_query book_id current_user) s =
    (Some (mkAPIResponse
             (List.filter (Supabase.matches (own_filters book_id current_user))
                          (Supabase.books s))),
     Supabase.set_books s
       (List.filter (λ r, negb (Supabase.matches (own_filters book_id current_user) r))
                    (Supabase.books s))).
Proof. reflexivity. Qed.

Lemma exec_update_query s book_id book current_user now :
  Supabase.exec (update_query book_id book current_user now) s =
    (Some (mkAPIResponse
             ((λ r, update_payload book now ∪ r) <$>
              List.filter (Supabase.matches (own_filters book_id current_user))
                          (Supabase.books s))),
     Supabase.set_books s
       ((λ r, if Supabase.matches (own_filters book_id current_user) r
              then update_payload book now ∪ r else r) <$> Supabase.books s)).
Proof. reflexivity. Qed.

Lemma filter_sublist {A} (f : A → bool) (l : list A) : sublist (List.filter f l) l.
Proof.
  induction l as [|a l IH]; cbn; [constructor|].
  destruct (f a); by constructor.
Qed.

Lemma elem_of_filter_bool {A} (f : A → bool) (l : list A) x :
  x ∈ List.filter f l ↔ x ∈ l ∧ f x = true.
Proof. rewrite !list_elem_of_In. apply filter_In. Qed.

Lemma run_delete_book_table s book_id current_user :
  run Supabase.service (delete_book book_id current_user) s =
    (if truthy (List.filter (Supabase.matches (own_filters book_id current_user))
                            (Supabase.books s))
     then Returned ∅ else HTTPError NotFound,
     Supabase.set_books s
       (List.filter (λ r, negb (Supabase.matches (own_filters book_id current_user) r))
                    (Supabase.books s)),
     [EvExecute (delete_query book_id current_user)]).
Proof.
  rewrite run_delete_book. cbv zeta.
  change (execute Supabase.service) with Supabase.exec.
  rewrite exec_delete_query. reflexivity.
Qed.

(** X6: a successful delete: when the caller owns a row with this id,
    [delete_book] answers [{}]; afterwards the table holds exactly the
    rows that are not the caller's row with this id, in their old
    order, so no row of another user and no row with another id is
    lost. *)
Theorem delete_book_removes_only_own_row :
  ∀ (s : Supabase.state) (book_id : UUID) (current_user : User),
    Exists (is_own book_id current_user) (Supabase.books s) →
    let s1 := state_of (run Supabase.service (delete_book book_id current_user) s) in
    result_of (run Supabase.service (delete_book book_id current_user) s) = Returned ∅ ∧
    (∀ r, r ∈ Supabase.books s1 ↔ r ∈ Supabase.books s ∧ ¬ is_own book_id current_user r) ∧
    sublist (Supabase.books s1) (Supabase.books s).
Proof.
  intros s book_id current_user Hex s1. subst s1.
  rewrite run_delete_book_table. unfold result_of, state_of. cbn [fst snd].
  apply Exists_exists in Hex as (x & Hx & Hown).
  destruct (filter_some (Supabase.matches (own_filters book_id current_user))
              (Supabase.books s) x Hx) as (y & l & ->); [by apply matches_own|].
  split; [reflexivity|]. split.
  - intros r. cbn [Supabase.books Supabase.set_books].
    rewrite elem_of_filter_bool, negb_true_iff, matches_own_false. reflexivity.
  - apply filter_sublist.
Qed.

(** Alice deletes her "Dune"; Bob's "Emma" stays. *)
Lemma delete_book_removes_only_own_row_witness :
  result_of (run Supabase.service (delete_book book_1 alice) library) = Returned ∅ ∧
  Supabase.books (state_of (run Supabase.service (delete_book book_1 alice) library))
    = [stored book_2 bob "Emma"].
Proof.
  split.
  - refine (proj1 (delete_book_removes_only_own_row library book_1 alice _)).
    apply Exists_cons_hd. split; vm_compute; reflexivity.
  - vm_compute. reflexivity.
Defined.

(** X7: deleting is final: whatever the first [delete_book] did, the same
    request made again answers [NotFound] and changes nothing. *)
Theorem delete_book_again_is_not_found :
  ∀ (s : Supabase.state) (book_id : UUID) (current_user : User),
    let s1 := state_of (run Supabase.service (delete_book book_id current_user) s) in
    run Supabase.service (delete_book book_id current_user) s1
      = (HTTPError NotFound, s1, [EvExecute (delete_query book_id current_user)]).
Proof.
  intros s book_id current_user s1. subst s1.
  rewrite (run_delete_book_table s). unfold state_of. cbn [fst snd].
  rewrite run_delete_book_table. cbn [Supabase.books Supabase.set_books].
  set (f := Supabase.matches (own_filters book_id current_user)).
  set (l := List.filter (λ r, negb (f r)) (Supabase.books s)).
  assert (Hl : ∀ r, r ∈ l → f r = false).
  { intros r Hr. apply elem_of_filter_bool in Hr as [_ Hr]. by apply negb_true_iff. }
  rewrite (filter_none f l Hl).
  rewrite (filter_all (λ r, negb (f r)) l); [reflexivity|].
  intros r Hr. by rewrite (Hl r Hr).
Qed.

Lemma run_update_book_table s book_id book current_user :
  Forall (λ r, r !! "name" ≠ Some (VStr (name book))) (Supabase.books s) →
  run Supabase.service (update_book book_id book current_user) s =
    (if truthy (List.filter (Supabase.matches (own_filters book_id current_user))
                            (Supabase.books s))
     then Returned ∅ else HTTPError NotFound,
     Supabase.set_books s
       ((λ r, if Supabase.matches (own_filters book_id current_user) r
              then update_payload book (Supabase.clock s) ∪ r else r) <$> Supabase.books s),
     [EvExecute (name_probe book); EvUtcNow;
      EvExecute (update_query book_id book current_user (Supabase.clock s))]).
Proof.
  intros Hfree.
  rewrite (run_update_book_free Supabase.service book_id book current_user
             s (mkAPIResponse []) s (Supabase.clock s) s
             (probe_miss book s Hfree) eq_refl eq_refl).
  cbv zeta. change (execute Supabase.service) with Supabase.exec.
  rewrite exec_update_query. cbn [fst snd data].
  destruct (List.filter _ (Supabase.books s)); reflexivity.
Qed.

Lemma update_payload_other book now c :
  c ≠ "name" → c ≠ "description" → c ≠ "updated_at" →
  update_payload book now !! c = None.
Proof.
  intros H1 H2 H3. unfold update_payload, model_dump.
  by rewrite !lookup_insert_ne.
Qed.

(** X8: a successful update: when the new name is free and the caller owns
    a row with this id, [update_book] answers [{}]; that row gets the
    new name, the new description (null when the body gave none: the
    old one is not kept) and the stamp, and keeps every other column;
    every other row is as it was. *)
Theorem update_book_rewrites_only_own_row :
  ∀ (s : Supabase.state) (book_id : UUID) (book : BookIn) (current_user : User),
    Forall (λ r, r !! "name" ≠ Some (VStr (name book))) (Supabase.books s) →
    Exists (is_own book_id current_user) (Supabase.books s) →
    let s1 := state_of (run Supabase.service (update_book book_id book current_user) s) in
    result_of (run Supabase.service (update_book book_id book current_user) s) = Returned ∅ ∧
    length (Supabase.books s1) = length (Supabase.books s) ∧
    (∀ (i : nat) (r : row), Supabase.books s !! i = Some r →
       ∃ r1, Supabase.books s1 !! i = Some r1 ∧
         (¬ is_own book_id current_user r → r1 = r) ∧
         (is_own book_id current_user r →
            r1 !! "name" = Some (VStr (name book)) ∧
            r1 !! "description" =
              Some (match description book with Some d => VStr d | None => VNull end) ∧
            r1 !! "updated_at" = Some (VStr (isoformat (Supabase.clock s))) ∧
            ∀ c, c ≠ "name" → c ≠ "description" → c ≠ "updated_at" → r1 !! c = r !! c)).
Proof.
  intros s book_id book current_user Hfree Hex s1. subst s1.
  rewrite (run_update_book_table s book_id book current_user Hfree).
  unfold result_of, state_of. cbn [fst snd Supabase.books Supabase.set_books].
  split; [|split].
  - apply Exists_exists in Hex as (x & Hx & Hown).
    destruct (filter_some (Supabase.matches (own_filters book_id current_user))
                (Supabase.books s) x Hx) as (y & l & ->); [by apply matches_own|].
    reflexivity.
  - apply length_fmap.
  - intros i r Hr. rewrite list_lookup_fmap, Hr. cbn [fmap option_fmap option_map].
    eexists. split; [reflexivity|].
    destruct (Supabase.matches (own_filters book_id current_user) r) eqn:E.
    + apply matches_own in E. split; [done|]. intros _.
      split; [|split; [|split]].
      * apply lookup_union_Some_l. unfold update_payload.
        rewrite lookup_insert_ne by done. apply model_dump_name.
      * apply lookup_union_Some_l. unfold update_payload.
        rewrite lookup_insert_ne by done. apply model_dump_description.
      * apply lookup_union_Some_l. unfold update_payload. apply lookup_insert_eq.
      * intros c H1 H2 H3. apply lookup_union_r. by apply update_payload_other.
    + apply matches_own_false in E. split; [done|]. intros H. by destruct E.
Qed.

(** Alice renames her "Dune" and gives no description. *)
Lemma update_book_rewrites_only_own_row_witness :
  result_of (run Supabase.service (update_book book_1 (mkBookIn "Dune2" None) alice) library)
    = Returned ∅ ∧
  length (Supabase.books
            (state_of (run Supabase.service
                         (update_book book_1 (mkBookIn "Dune2" None) alice) library))) = 2%nat.
Proof.
  pose proof (update_book_rewrites_only_own_row library book_1 (mkBookIn "Dune2" None) alice)
    as H.
  destruct H as (Hres & Hlen & _).
  - repeat constructor; vm_compute; discriminate.
  - apply Exists_cons_hd. split; vm_compute; reflexivity.
  - split; [exact Hres|exact Hlen].
Defined.

(** X9: whatever the request and however it ends, [update_book] leaves the
    number of rows, and the [id] and [user_id] of every row, as they
    were: an update never moves a book to another owner. *)
Theorem update_book_preserves_identity_and_owner :
  ∀ (s : Supabase.state) (book_id : UUID) (book : BookIn) (current_user : User),
    let s1 := state_of (run Supabase.service (update_book book_id book current_user) s) in
    length (Supabase.books s1) = length (Supabase.books s) ∧
    ∀ (i : nat) (r r1 : row),
      Supabase.books s !! i = Some r → Supabase.books s1 !! i = Some r1 →
      r1 !! "id" = r !! "id" ∧ r1 !! "user_id" = r !! "user_id".
Proof.
  intros s book_id book current_user s1. subst s1.
  pose proof (exec_name_probe book s) as He. set (resp := mkAPIResponse _) in He.
  destruct (truthy (data resp)) eqn:Ht.
  - rewrite (run_update_book_taken Supabase.service book_id book current_user s resp s He Ht).
    unfold state_of. cbn [fst snd]. split; [reflexivity|].
    intros i r r1 Hr Hr1. rewrite Hr in Hr1. by injection Hr1 as <-.
  - rewrite (run_update_book_table s book_id book current_user
               (probe_empty_inv book s resp s He Ht)).
    unfold state_of. cbn [fst snd Supabase.books Supabase.set_books].
    split; [apply length_fmap|].
    intros i r r1 Hr. rewrite list_lookup_fmap, Hr. cbn [fmap option_fmap option_map].
    destruct (Supabase.matches (own_filters book_id current_user) r);
      intros [= <-]; [|by split].
    split; apply lookup_union_r; by apply update_payload_other.
Qed.

Lemma probe_truthy_inv book s resp s1 :
  Supabase.exec (name_probe book) s = (Some resp, s1) → truthy (data resp) = true →
  name_taken (name book) s.
Proof.
  rewrite exec_name_probe. intros H. injection H as <- <-. cbn [data].
  destruct (List.filter (Supabase.matches [("name", name book)]) (Supabase.books s))
    as [|y l] eqn:E; [discriminate|]. intros _.
  assert (Hy : y ∈ List.filter (Supabase.matches [("name", name book)]) (Supabase.books s))
    by (rewrite E; left).
  apply elem_of_filter_bool in Hy as [Hy Hm]. apply matches_one in Hm.
  apply Exists_exists. eauto.
Qed.

Lemma run_create_book_table s book current_user :
  Forall (λ r, r !! "name" ≠ Some (VStr (name book))) (Supabase.books s) →
  let created := model_dump book ∪ {[ "id" := VStr (str_UUID (mkUUID (Supabase.next_id s))) ]} in
  run Supabase.service (create_book book current_user) s =
    (Returned created,
     Supabase.mkState (Supabase.books s ++ [created])%list (Supabase.next_id s + 1)
                      (Supabase.clock s) (Supabase.accounts s),
     [EvExecute (name_probe book); EvExecute (tbl_insert (model_dump book))]).
Proof.
  intros Hfree created.
  rewrite (run_create_book_free Supabase.service book current_user s (mkAPIResponse []) s
             (probe_miss book s Hfree) eq_refl).
  reflexivity.
Qed.

(** X10: the guard is exact on the table: [create_book] and [update_book]
    fail with [DuplicateName] if and only if some row, of any owner,
    carries the requested name. *)
Theorem duplicate_name_iff_name_taken :
  ∀ (s : Supabase.state) (book : BookIn) (book_id : UUID) (current_user : User),
    (result_of (run Supabase.service (create_book book current_user) s)
       = HTTPError DuplicateName ↔ name_taken (name book) s) ∧
    (result_of (run Supabase.service (update_book book_id book current_user) s)
       = HTTPError DuplicateName ↔ name_taken (name book) s).
Proof.
  intros s book book_id current_user.
  pose proof (exec_name_probe book s) as He. set (resp := mkAPIResponse _) in He.
  destruct (truthy (data resp)) eqn:Ht.
  - pose proof (probe_truthy_inv book s resp s He Ht) as Htaken.
    rewrite (run_create_book_taken Supabase.service book current_user s resp s He Ht).
    rewrite (run_update_book_taken Supabase.service book_id book current_user s resp s He Ht).
    split; split; auto.
  - pose proof (probe_empty_inv book s resp s He Ht) as Hfree.
    assert (Hno : ¬ name_taken (name book) s).
    { intros Hex. apply Exists_exists in Hex as (x & Hx & Hn).
      rewrite Forall_forall in Hfree. exact (Hfree x Hx Hn). }
    rewrite (run_create_book_table s book current_user Hfree).
    rewrite (run_update_book_table s book_id book current_user Hfree).
    unfold result_of. cbn [fst].
    unfold NotFound, DuplicateName.
    split; split; try done.
    destruct (truthy (List.filter _ _)); discriminate.
Qed.

(** X11: a successful create: when the name is free, [create_book] answers
    with the stored row; the table is the old one, untouched, with that
    one row appended; the row holds the requested name and description
    (null when the body gave none). *)
Theorem create_book_appends_one_row :
  ∀ (s : Supabase.state) (book : BookIn) (current_user : User),
    Forall (λ r, r !! "name" ≠ Some (VStr (name book))) (Supabase.books s) →
    ∃ created : row,
      result_of (run Supabase.service (create_book book current_user) s) = Returned created ∧
      Supabase.books (state_of (run Supabase.service (create_book book current_user) s))
        = (Supabase.books s ++ [created])%list ∧
      created !! "name" = Some (VStr (name book)) ∧
      created !! "description" =
        Some (match description book with Some d => VStr d | None => VNull end).
Proof.
  intros s book current_user Hfree.
  rewrite (run_create_book_table s book current_user Hfree). cbv zeta.
  eexists. unfold result_of, state_of. cbn [fst snd Supabase.books].
  split; [reflexivity|]. split; [reflexivity|].
  split; [apply lookup_union_Some_l, model_dump_name|].
  apply lookup_union_Some_l, model_dump_description.
Qed.

(** Bob creates "Persuasion" in the sample library. *)
Lemma create_book_appends_one_row_witness :
  ∃ created : row,
    result_of (run Supabase.service (create_book (mkBookIn "Persuasion" None) bob) library)
      = Returned created ∧
    Supabase.books (state_of (run Supabase.service
                                (create_book (mkBookIn "Persuasion" None) bob) library))
      = (Supabase.books library ++ [created])%list ∧
    created !! "name" = Some (VStr "Persuasion").
Proof.
  destruct (create_book_appends_one_row library (mkBookIn "Persuasion" None) bob)
    as (created & Hres & Hbooks & Hname & _).
  - repeat constructor; vm_compute; discriminate.
  - exists created. split; [exact Hres|]. split; [exact Hbooks|exact Hname].
Defined.

(** X12: names are first come, first served: after a successful create,
    every later create with the same name, by the same or any other
    user, fails with [DuplicateName] and leaves the table alone. *)
Theorem create_book_then_same_name_is_rejected :
  ∀ (s : Supabase.state) (book later : BookIn) (current_user other : User),
    Forall (λ r, r !! "name" ≠ Some (VStr (name book))) (Supabase.books s) →
    name later = name book →
    let s1 := state_of (run Supabase.service (create_book book current_user) s) in
    run Supabase.service (create_book later other) s1
      = (HTTPError DuplicateName, s1, [EvExecute (name_probe later)]).
Proof.
  intros s book later current_user other Hfree Hname s1. subst s1.
  rewrite (run_create_book_table s book current_user Hfree). cbv zeta.
  unfold state_of. cbn [fst snd].
  set (created := model_dump book ∪ _).
  set (s1 := Supabase.mkState _ _ _ _).
  destruct (probe_hit later s1 created) as (resp & He & Ht).
  - subst s1. cbn [Supabase.books]. apply elem_of_app. right. left.
  - rewrite Hname. subst created. apply lookup_union_Some_l, model_dump_name.
  - exact (run_create_book_taken Supabase.service later other s1 resp s1 He Ht).
Qed.

(** Alice creates "Persuasion" on the empty table, then Bob tries. *)
Lemma create_book_then_same_name_is_rejected_witness :
  let s1 := state_of (run Supabase.service
                        (create_book (mkBookIn "Persuasion" None) alice) empty_library) in
  run Supabase.service (create_book (mkBookIn "Persuasion" (Some "mine")) bob) s1
    = (HTTPError DuplicateName, s1,
       [EvExecute (name_probe (mkBookIn "Persuasion" (Some "mine")))]).
Proof.
  apply (create_book_then_same_name_is_rejected empty_library
           (mkBookIn "Persuasion" None) (mkBookIn "Persuasion" (Some "mine")) alice bob).
  - constructor.
  - reflexivity.
Defined.

(** X13: [update_book] and [delete_book] reach the same rows: for a request
    that passes the name guard, the update succeeds exactly when the
    delete of the same id by the same user would, namely when the
    caller owns a row with this id. *)
Theorem update_and_delete_share_their_scope :
  ∀ (s : Supabase.state) (book_id : UUID) (book : BookIn) (current_user : User),
    Forall (λ r, r !! "name" ≠ Some (VStr (name book))) (Supabase.books s) →
    (result_of (run Supabase.service (update_book book_id book current_user) s) = Returned ∅
       ↔ Exists (is_own book_id current_user) (Supabase.books s)) ∧
    (result_of (run Supabase.service (delete_book book_id current_user) s) = Returned ∅
       ↔ Exists (is_own book_id current_user) (Supabase.books s)) ∧
    (result_of (run Supabase.service (update_book book_id book current_user) s)
       = HTTPError NotFound
       ↔ result_of (run Supabase.service (delete_book book_id current_user) s)
           = HTTPError NotFound).
Proof.
  intros s book_id book current_user Hfree.
  rewrite (run_update_book_table s book_id book current_user Hfree).
  rewrite run_delete_book_table. unfold result_of. cbn [fst].
  destruct (List.filter (Supabase.matches (own_filters book_id current_user))
              (Supabase.books s)) as [|y l] eqn:E; cbn [truthy].
  - assert (Hno : ¬ Exists (is_own book_id current_user) (Supabase.books s)).
    { intros Hex. apply Exists_exists in Hex as (x & Hx & Hown).
      destruct (filter_some (Supabase.matches (own_filters book_id current_user))
                  (Supabase.books s) x Hx) as (y & l & Hy); [by apply matches_own|].
      congruence. }
    split; [|split]; split; done.
  - assert (Hy : y ∈ List.filter (Supabase.matches (own_filters book_id current_user))
                       (Supabase.books s)) by (rewrite E; left).
    apply elem_of_filter_bool in Hy as [Hy Hm]. apply matches_own in Hm.
    assert (Hex : Exists (is_own book_id current_user) (Supabase.books s))
      by (apply Exists_exists; eauto).
    split; [|split]; split; done.
Qed.

(** Bob against Alice's book: both refuse; Alice on her own: both go. *)
Lemma update_and_delete_share_their_scope_witness :
  result_of (run Supabase.service (update_book book_1 (mkBookIn "Persuasion" None) bob) library)
    = HTTPError NotFound ∧
  result_of (run Supabase.service (delete_book book_1 bob) library) = HTTPError NotFound.
Proof.
  assert (Hfree : Forall (λ r : row, r !! "name" ≠ Some (VStr "Persuasion"))
                         (Supabase.books library))
    by (repeat constructor; vm_compute; discriminate).
  pose proof (update_and_delete_share_their_scope library book_1
                (mkBookIn "Persuasion" None) bob Hfree) as (_ & _ & Hsame).
  assert (Hd : result_of (run Supabase.service (delete_book book_1 bob) library)
               = HTTPError NotFound) by (vm_compute; reflexivity).
  split; [exact (proj2 Hsame Hd)|exact Hd].
Defined.

(** ** Pagination on the table service *)

Lemma filter_own_rows current_user s :
  List.filter (Supabase.matches [("user_id", id current_user)]) (Supabase.books s)
    = own_rows current_user s.
Proof.
  unfold own_rows. apply List.filter_ext. intros r.
  unfold Supabase.matches. cbn. apply andb_true_r.
Qed.

Lemma project_star (rows : list row) : Supabase.project "*" <$> rows = rows.
Proof. induction rows as [|a rows IH]; [reflexivity|]. cbn. by rewrite IH. Qed.

Lemma run_list_book_window s current_user page limit :
  (1 <= page)%Z → (0 <= limit)%Z →
  run Supabase.service (list_book current_user page limit) s =
    (Returned (take (Z.to_nat limit)
                 (drop (Z.to_nat ((page - 1) * limit)) (own_rows current_user s))),
     s, [EvExecute (list_query current_user page limit)]).
Proof.
  intros Hp Hl. rewrite run_list_book. cbv zeta.
  change (execute Supabase.service) with Supabase.exec.
  unfold Supabase.exec, list_query. cbn [q_op q_filters q_limit q_offset].
  rewrite filter_own_rows. unfold Supabase.window, default. cbn [from_option].
  unfold Datatypes.id.
  assert (Hoff : (0 <= (page - 1) * limit)%Z) by nia.
  rewrite bool_decide_eq_false_2 by lia.
  rewrite bool_decide_eq_false_2 by lia.
  cbn [fst snd data]. rewrite project_star. reflexivity.
Qed.

(** X14: from page 1 on and for a limit that is not negative, [list_book]
    answers with the window of the caller's rows that starts after the
    first [(page - 1) * limit] of them and is [limit] long at most;
    the table is only read. *)
Theorem list_book_page_window :
  ∀ (s : Supabase.state) (current_user : User) (page limit : Z),
    (1 <= page)%Z → (0 <= limit)%Z →
    let rows := take (Z.to_nat limit)
                  (drop (Z.to_nat ((page - 1) * limit)) (own_rows current_user s)) in
    result_of (run Supabase.service (list_book current_user page limit) s) = Returned rows ∧
    state_of (run Supabase.service (list_book current_user page limit) s) = s ∧
    (length rows <= Z.to_nat limit)%nat.
Proof.
  intros s current_user page limit Hp Hl rows.
  rewrite (run_list_book_window s current_user page limit Hp Hl).
  unfold result_of, state_of. cbn [fst snd].
  split; [reflexivity|]. split; [reflexivity|].
  subst rows. rewrite length_take. lia.
Qed.

(** Bob's first page of ten in the sample library. *)
Lemma list_book_page_window_witness :
  result_of (run Supabase.service (list_book bob 1 10) library)
    = Returned (take 10 (drop 0 (own_rows bob library))).
Proof.
  refine (proj1 (list_book_page_window library bob 1 10 _ _)); lia.
Defined.

(** X15: pages neither overlap nor skip: read in order, pages 1 to [k] of
    the same limit give exactly the first [k * limit] of the caller's
    rows. *)
Theorem list_book_pages_tile_own_rows :
  ∀ (s : Supabase.state) (current_user : User) (limit : Z) (k : nat),
    (0 <= limit)%Z →
    concat ((λ p : nat, page_rows s current_user (Z.of_nat p) limit) <$> seq 1 k)
      = take (k * Z.to_nat limit) (own_rows current_user s).
Proof.
  intros s current_user limit k Hl.
  induction k as [|k IH]; [reflexivity|].
  rewrite seq_S, fmap_app, concat_app, IH.
  change (concat ((λ p : nat, page_rows s current_user (Z.of_nat p) limit) <$> [(1 + k)%nat]))
    with (page_rows s current_user (Z.of_nat (1 + k)) limit ++ [])%list.
  rewrite app_nil_r. unfold page_rows.
  rewrite (run_list_book_window s current_user (Z.of_nat (1 + k)) limit ltac:(lia) Hl).
  unfold result_of. cbn [fst].
  replace (Z.to_nat ((Z.of_nat (1 + k) - 1) * limit)) with (k * Z.to_nat limit)%nat by nia.
  rewrite take_take_drop. f_equal. lia.
Qed.

(** Two pages of one row each over Bob's rows. *)
Lemma list_book_pages_tile_own_rows_witness :
  concat ((λ p : nat, page_rows library bob (Z.of_nat p) 1) <$> seq 1 2)
    = take 2 (own_rows bob library).
Proof.
  apply (list_book_pages_tile_own_rows library bob 1 2). lia.
Defined.

(** ** The logger loop *)

Lemma prefix_append (p rest : string) : String.prefix p (p +:+ rest) = true.
Proof. apply prefix_correct. induction p as [|a p IH]; cbn.
  - by destruct rest.
  - change (String a p +:+ rest) with (String a (p +:+ rest)). cbn. by rewrite IH.
Qed.

Lemma lookup_disable_other_loggers loggerDict k :
  disable_other_loggers loggerDict !! k =
    (λ disabled, if negb (startswith k ["fastapi_supabase"; "uvicorn"])
                 then true else disabled) <$> loggerDict !! k.
Proof.
  unfold disable_other_loggers. rewrite map_lookup_imap.
  by destruct (loggerDict !! k).
Qed.

(** X17: the start-up loop only ever disables.  It keeps the set of logger
    names; a logger that was disabled stays disabled; a logger whose
    name starts with [fastapi_supabase] or [uvicorn] (as text: any
    continuation of the name counts, not only dotted children) keeps
    its flag, so the loop does not switch it on; every other logger
    ends disabled; and running the loop again changes nothing. *)
Theorem logger_loop_only_disables :
  ∀ (loggerDict : gmap string bool),
    dom (disable_other_loggers loggerDict) = dom loggerDict ∧
    (∀ k, loggerDict !! k = Some true →
          disable_other_loggers loggerDict !! k = Some true) ∧
    (∀ k rest, k = "fastapi_supabase" +:+ rest ∨ k = "uvicorn" +:+ rest →
               disable_other_loggers loggerDict !! k = loggerDict !! k) ∧
    (∀ k disabled, loggerDict !! k = Some disabled →
                   startswith k ["fastapi_supabase"; "uvicorn"] = false →
                   disable_other_loggers loggerDict !! k = Some true) ∧
    disable_other_loggers (disable_other_loggers loggerDict)
      = disable_other_loggers loggerDict.
Proof.
  intros loggerDict. split; [|split; [|split; [|split]]].
  - apply set_eq. intros k. rewrite !elem_of_dom, lookup_disable_other_loggers.
    by rewrite fmap_is_Some.
  - intros k Hk. rewrite lookup_disable_other_loggers, Hk. cbn.
    by destruct (negb _).
  - intros k rest Hk. rewrite lookup_disable_other_loggers.
    assert (Hs : startswith k ["fastapi_supabase"; "uvicorn"] = true).
    { unfold startswith. cbn [existsb].
      destruct Hk as [-> | ->]; rewrite prefix_append; [reflexivity|apply orb_true_r]. }
    rewrite Hs. cbn. by destruct (loggerDict !! k).
  - intros k disabled Hk Hs. rewrite lookup_disable_other_loggers, Hk, Hs. reflexivity.
  - apply map_eq. intros k. rewrite !lookup_disable_other_loggers.
    destruct (loggerDict !! k) as [d|]; [|reflexivity]. cbn.
    by destruct (negb _).
Qed.
